(** * Bambu-Lab-RFID-Library: the two maintenance scripts

    A shallow embedding of [scripts/gen_missing_key.py] and
    [scripts/gen_excel.py].

    Conventions of the embedding.
    - A Python [str] is a Rocq [string].  The scripts only compare, slice by
      suffix and test membership of characters in ASCII literals, so a
      character outside ASCII (several bytes here, one code point in Python)
      is treated the same on both sides: it is never a hexadecimal digit.
    - A [pathlib.Path] is the tuple of its [parts].
    - A tree of directories is a static skeleton (the scripts create no
      directory) together with a store that gives the listing of every
      directory; [open(..., 'wb')] updates the store.
    - What Python raises is an [exn] carried in a sum type; [try]/[except
      Exception] is a [match] on that sum. *)

From Stdlib Require Import Ascii String DecimalString.
From Stdlib.Strings Require Import Byte.
From stdpp Require Import gmap strings list fin_maps sorting.

Local Open Scope string_scope.
Local Open Scope nat_scope.
Local Open Scope list_scope.

(** ** Python built-ins used by both scripts *)

Module Py.

(** [c in s] for a one-character [c]. *)
Fixpoint char_in (c : ascii) (s : string) : bool :=
  match s with
  | EmptyString => false
  | String d s' => if Ascii.eqb c d then true else char_in c s'
  end.

(** [all(p(c) for c in s)] *)
Fixpoint all_chars (p : ascii → bool) (s : string) : bool :=
  match s with
  | EmptyString => true
  | String c s' => p c && all_chars p s'
  end.

(** [s.endswith(suffix)] *)
Definition endswith (s suffix : string) : bool :=
  let n := String.length s in
  let k := String.length suffix in
  (k <=? n)%nat && String.eqb (substring (n - k) k s) suffix.

(** [str(n)] for a non-negative [int]. *)
Definition str_of_nat (n : nat) : string :=
  NilZero.string_of_uint (Nat.to_uint n).

(** [x in l] for a list of strings. *)
Definition str_in (x : string) (l : list string) : bool :=
  existsb (String.eqb x) l.

(** [l.remove(x)]: drops the first occurrence.  Python raises [ValueError]
    when there is none; the scripts call it under an [if x in l] guard. *)
Fixpoint list_remove (x : string) (l : list string) : list string :=
  match l with
  | [] => []
  | y :: l' => if String.eqb x y then l' else y :: list_remove x l'
  end.

End Py.

(** ** The directory-name test shared by the two walkers *)

(** [len(current_dir) == 8 and all(c in '0123456789ABCDEFabcdef' for c in
    current_dir)], as written in [find_missing_key_files]. *)
Definition is_uid_dir (current_dir : string) : bool :=
  (String.length current_dir =? 8)%nat
  && Py.all_chars (λ c, Py.char_in c "0123456789ABCDEFabcdef") current_dir.

(** The same test as written in [find_rfid_files] of [gen_excel.py]. *)
Definition is_uid_dir_excel (current_dir : string) : bool :=
  (String.length current_dir =? 8)%nat
  && Py.all_chars (λ c, Py.char_in c "0123456789ABCDEFabcdef") current_dir.

(** A hexadecimal digit, by its character code: [0-9], [A-F] or [a-f]. *)
Definition hex_digit (c : ascii) : Prop :=
  let n := nat_of_ascii c in
  (48 ≤ n ≤ 57) ∨ (65 ≤ n ≤ 70) ∨ (97 ≤ n ≤ 102).

(** Every character of [s] satisfies [P]. *)
Fixpoint Forall_chars (P : ascii → Prop) (s : string) : Prop :=
  match s with
  | EmptyString => True
  | String c s' => P c ∧ Forall_chars P s'
  end.

(** ** Exceptions and results *)

(** The exceptions the scripts can meet; all of them derive from
    [Exception]. *)
Inductive exn : Type :=
| FileNotFoundError
| JSONDecodeError
| KeyError (key : string)
| TypeError
| AttributeError
| ValueError
| OSError.

(** A computation that returns or raises. *)
Inductive result (A : Type) : Type :=
| Ok (a : A)
| Raise (e : exn).
Arguments Ok {A} a.
Arguments Raise {A} e.

Definition result_bind {A B} (f : A → result B) (r : result A) : result B :=
  match r with
  | Ok a => f a
  | Raise e => Raise e
  end.

#[global] Instance result_mret : MRet result := λ A a, Ok a.
#[global] Instance result_mbind : MBind result := λ A B f r, result_bind f r.

(** ** Values produced by [json.load] *)

#[local] Set Warnings "-register-all".

Inductive json : Type :=
| JNull
| JBool (b : bool)
| JInt (n : Z)
| JFloat (repr : string)
| JStr (s : string)
| JList (l : list json)
| JDict (d : gmap string json).

(** [v[key]] with a [str] key: only a [dict] can be indexed by a string. *)
Definition getitem (v : json) (key : string) : result json :=
  match v with
  | JDict d =>
      match d !! key with
      | Some x => Ok x
      | None => Raise (KeyError key)
      end
  | _ => Raise TypeError
  end.

(** [v.get(key, default)]: only a [dict] has the method. *)
Definition get (v : json) (key : string) (default : json) : result json :=
  match v with
  | JDict d =>
      match d !! key with
      | Some x => Ok x
      | None => Ok default
      end
  | _ => Raise AttributeError
  end.

(** ** [bytes.fromhex] *)

Module Hex.

(** [Py_ISSPACE]: space, [\t], [\n], [\v], [\f], [\r]. *)
Definition is_space (c : ascii) : bool :=
  let n := nat_of_ascii c in
  (n =? 32)%nat || ((9 <=? n)%nat && (n <=? 13)%nat).

(** The value of a hexadecimal digit, [None] for any other character. *)
Definition digit_value (c : ascii) : option N :=
  let n := N_of_ascii c in
  if (48 <=? n)%N && (n <=? 57)%N then Some (n - 48)%N
  else if (65 <=? n)%N && (n <=? 70)%N then Some (n - 55)%N
  else if (97 <=? n)%N && (n <=? 102)%N then Some (n - 87)%N
  else None.

(** [(top << 4) + bot] as a byte. *)
Definition mk_byte (top bot : N) : byte :=
  byte_of_ascii (ascii_of_N (16 * top + bot)).

(** The decoding loop of [bytes.fromhex]: white space is skipped between
    bytes, every byte is two adjacent hexadecimal digits, anything else
    raises [ValueError]. *)
Fixpoint fromhex (s : string) : result (list byte) :=
  match s with
  | EmptyString => Ok []
  | String c s1 =>
      if is_space c then fromhex s1
      else
        match digit_value c with
        | None => Raise ValueError
        | Some top =>
            match s1 with
            | EmptyString => Raise ValueError
            | String d s2 =>
                match digit_value d with
                | None => Raise ValueError
                | Some bot =>
                    match fromhex s2 with
                    | Ok bs => Ok (mk_byte top bot :: bs)
                    | Raise e => Raise e
                    end
                end
            end
        end
  end.

End Hex.

(** [bytes.fromhex(v)]: [TypeError] unless [v] is a [str]. *)
Definition bytes_fromhex (v : json) : result (list byte) :=
  match v with
  | JStr s => Hex.fromhex s
  | _ => Raise TypeError
  end.

(** ** Paths and the file store *)

(** A path is the tuple of its parts; [".."] is the base path of both
    scripts. *)
Abbreviation path := (list string).

(** [directory / name] *)
Definition path_join (directory : path) (name : string) : path :=
  (directory ++ [name]).

(** [Path(p).name]: the final part, or the empty string. *)
Definition path_name (p : path) : string :=
  match last p with
  | Some n => n
  | None => EmptyString
  end.

(** [str(p)] *)
Definition str_of_path (p : path) : string := String.concat "/" p.

(** The files directly inside a directory, in listing order. *)
Abbreviation listing := (list (string * list byte)).

(** The listing of every directory of the tree. *)
Abbreviation store := (gmap (list string) (list (string * list byte))).

Fixpoint file_get (name : string) (l : listing) : option (list byte) :=
  match l with
  | [] => None
  | (n, data) :: l' => if String.eqb name n then Some data else file_get name l'
  end.

(** Creating or truncating a file: an existing entry is replaced where it
    stands, a new one goes to the end of the listing. *)
Fixpoint file_put (name : string) (data : list byte) (l : listing) : listing :=
  match l with
  | [] => [(name, data)]
  | (n, d) :: l' =>
      if String.eqb name n then (n, data) :: l' else (n, d) :: file_put name data l'
  end.

(** What the scripts take from their platform. *)
Class Platform : Type := {
  (** [json.load] on the content of a file; [None] when it raises. *)
  json_load : list byte → option json;
  (** [f'{v}'] for a value that is not a [str]. *)
  py_format : json → string;
  (** Whether the operating system lets a file of this name be created in
      an existing directory (no path separator, no NUL, not too long). *)
  os_accepts : string → bool
}.

(** A computation on the file store that returns or raises; the store it
    leaves is the one at the moment of the raise. *)
Definition Fs (A : Type) : Type := store → store * result A.

#[global] Instance Fs_mret : MRet Fs := λ A a st, (st, Ok a).
#[global] Instance Fs_mbind : MBind Fs := λ A B f m st,
  match m st with
  | (st', Ok a) => f a st'
  | (st', Raise e) => (st', Raise e)
  end.

(** A pure step inside a computation on the store. *)
Definition lift {A} (r : result A) : Fs A := λ st, (st, r).

(** [open(p)] for reading followed by reading the whole file. *)
Definition read_file (p : path) : Fs (list byte) := λ st,
  match last p with
  | Some name =>
      match st !! removelast p with
      | Some l =>
          match file_get name l with
          | Some data => (st, Ok data)
          | None => (st, Raise FileNotFoundError)
          end
      | None => (st, Raise FileNotFoundError)
      end
  | None => (st, Raise FileNotFoundError)
  end.

(** [with open(p, 'wb') as f: f.write(data)].  Opening raises and leaves the
    tree as it is when the directory does not exist or the name is refused;
    an opened file takes the whole of [data]. *)
Definition write_file `{Platform} (p : path) (data : list byte) : Fs unit := λ st,
  match last p with
  | Some name =>
      match st !! removelast p with
      | Some l =>
          if os_accepts name
          then (<[removelast p := file_put name data l]> st, Ok tt)
          else (st, Raise OSError)
      | None => (st, Raise FileNotFoundError)
      end
  | None => (st, Raise OSError)
  end.

(** ** The directory skeleton and [os.walk] *)

(** A directory with its sub-directories, by name, in listing order. *)
Inductive tree : Type :=
| Node (subdirs : list (string * tree)).

(** The names of the files of a directory, as [os.walk] reports them. *)
Definition files_of (st : store) (root : path) : list string :=
  match st !! root with
  | Some l => l.*1
  | None => []
  end.

(** The recursion of [os.walk] into the sub-directories of [root] that are
    still named in [dirs], in listing order; [walk] is the walk of one
    sub-directory. *)
Definition enter_dirs {A} (walk : path → tree → A → A) (root : path)
    (dirs : list string) : list (string * tree) → A → A :=
  fix enter (subdirs : list (string * tree)) (acc : A) {struct subdirs} : A :=
    match subdirs with
    | [] => acc
    | (name, sub) :: rest =>
        enter rest
          (if Py.str_in name dirs then walk (path_join root name) sub acc
           else acc)
    end.

(** [for root, dirs, files in os.walk(top): body], top-down.  [body] gets
    the accumulated state of the loop and returns it together with [dirs] as
    the iteration leaves that list; the walk then enters the sub-directories
    still named in it. *)
Fixpoint os_walk {A} (body : A → path → list string → list string → A * list string)
    (st : store) (root : path) (t : tree) (acc : A) {struct t} : A :=
  match t with
  | Node subdirs =>
      let '(acc1, dirs) := body acc root (subdirs.*1) (files_of st root) in
      enter_dirs (os_walk body st) root dirs subdirs acc1
  end.

(** [Path("..")], the root of the project seen from [scripts/]. *)
Definition base_path : path := [".."].

(** ** [gen_missing_key.py] *)

Module GenMissingKey.

Section WithPlatform.
Context `{Platform}.

(** The body of the loop of [find_missing_key_files]. *)
Definition find_missing_body (missing_key_dirs : list (path * string))
    (root : path) (dirs files : list string)
  : list (path * string) * list string :=
  if bool_decide (root = base_path) then
    (missing_key_dirs,
     if Py.str_in "scripts" dirs then Py.list_remove "scripts" dirs else dirs)
  else if Py.str_in "scripts" root then (missing_key_dirs, dirs)
  else
    let current_dir := path_name root in
    if is_uid_dir current_dir then
      let json_files := List.filter (λ f, Py.endswith f "dump.json") files in
      let key_files := List.filter (λ f, Py.endswith f "key.bin") files in
      match json_files, key_files with
      | json_file :: _, [] => ((missing_key_dirs ++ [(root, json_file)]), dirs)
      | _, _ => (missing_key_dirs, dirs)
      end
    else (missing_key_dirs, dirs).

Definition find_missing_key_files (t : tree) (st : store) : list (path * string) :=
  os_walk find_missing_body st base_path t [].

(** One of the two loops over [range(16)]: the bytes of the [field] key of
    every sector are appended to [key_bytes]. *)
Fixpoint collect_keys (field : string) (sector_keys : json) (sectors : list nat)
    (key_bytes : list byte) : result (list byte) :=
  match sectors with
  | [] => Ok key_bytes
  | sector :: rest =>
      let sec_str := Py.str_of_nat sector in
      entry ← get sector_keys sec_str (JDict ∅);
      key_hex ← get entry field (JStr "FFFFFFFFFFFF");
      decoded ← bytes_fromhex key_hex;
      collect_keys field sector_keys rest (key_bytes ++ decoded)
  end.

(** [f'hf-mf-{uid}-key.bin'] *)
Definition key_file_name (uid : json) : string :=
  "hf-mf-" +:+ match uid with JStr s => s | v => py_format v end +:+ "-key.bin".

(** What [generate_key_file] does inside its [try]. *)
Definition generate_key_file_try (directory : path) (json_filename : string)
  : Fs (nat * path) :=
  let json_path := path_join directory json_filename in
  text ← read_file json_path;
  data ← lift (match json_load text with
               | Some v => Ok v
               | None => Raise JSONDecodeError
               end);
  card ← lift (getitem data "Card");
  uid ← lift (getitem card "UID");
  sector_keys ← lift (getitem data "SectorKeys");
  key_bytes ← lift (collect_keys "KeyA" sector_keys (seq 0 16) []);
  key_bytes ← lift (collect_keys "KeyB" sector_keys (seq 0 16) key_bytes);
  let output_path := path_join directory (key_file_name uid) in
  _ ← write_file output_path key_bytes;
  mret (length key_bytes, output_path).

(** The second component of the returned triple: [len(key_bytes)] or
    [str(e)]. *)
Inductive outcome : Type :=
| Len (n : nat)
| Msg (e : exn).

(** [generate_key_file]: the [try] with its [except Exception]. *)
Definition generate_key_file (directory : path) (json_filename : string)
    (st : store) : store * (bool * outcome * option path) :=
  match generate_key_file_try directory json_filename st with
  | (st', Ok (n, output_path)) => (st', (true, Len n, Some output_path))
  | (st', Raise e) => (st', (false, Msg e, None))
  end.

(** For the proofs, the [try] block in three stages: the document as
    loaded from the tree, *)
Definition load_document (directory : path) (json_filename : string)
    (st : store) : result json :=
  match st !! directory with
  | Some l =>
      match file_get json_filename l with
      | Some text =>
          match json_load text with
          | Some v => Ok v
          | None => Raise JSONDecodeError
          end
      | None => Raise FileNotFoundError
      end
  | None => Raise FileNotFoundError
  end.

(** ... the UID and the key bytes taken from it, *)
Definition decode_document (data : json) : result (json * list byte) :=
  card ← getitem data "Card";
  uid ← getitem card "UID";
  sector_keys ← getitem data "SectorKeys";
  key_bytes ← collect_keys "KeyA" sector_keys (seq 0 16) [];
  key_bytes ← collect_keys "KeyB" sector_keys (seq 0 16) key_bytes;
  mret (uid, key_bytes).

(** ... and the creation of the key file. *)
Definition store_key_file (directory : path) (uid : json) (key_bytes : list byte)
    (st : store) : store * (bool * outcome * option path) :=
  match st !! directory with
  | Some l =>
      if os_accepts (key_file_name uid)
      then (<[directory := file_put (key_file_name uid) key_bytes l]> st,
            (true, Len (length key_bytes),
             Some (path_join directory (key_file_name uid))))
      else (st, (false, Msg OSError, None))
  | None => (st, (false, Msg FileNotFoundError, None))
  end.

(** The first component of the returned triple. *)
Definition succeeded (directory : path) (json_filename : string) (st : store)
  : bool :=
  (generate_key_file directory json_filename st).2.1.1.

(** The counters of [main]. *)
Record tally : Type := Tally {
  success_count : nat;
  failed_count : nat;
  failed_dirs : list string
}.

(** One iteration of the loop of [main] over [missing_key_dirs]. *)
Definition main_step (s : store * tally) (item : path * string) : store * tally :=
  let '(st, t) := s in
  let '(directory, json_filename) := item in
  match generate_key_file directory json_filename st with
  | (st', (true, _, _)) =>
      (st', Tally (success_count t + 1) (failed_count t) (failed_dirs t))
  | (st', (false, _, _)) =>
      (st', Tally (success_count t) (failed_count t + 1)
                  (failed_dirs t ++ [str_of_path directory]))
  end.

Definition main_loop (missing_key_dirs : list (path * string))
    (s : store * tally) : store * tally :=
  fold_left main_step missing_key_dirs s.

(** [main]: search, then generate; the counters start at zero. *)
Definition main (t : tree) (st : store) : store * tally :=
  main_loop (find_missing_key_files t st) (st, Tally 0 0 []).

End WithPlatform.

End GenMissingKey.

(** ** [gen_excel.py] *)

Module GenExcel.

(** The two place-holders of the report: "unknown" and "parse failed". *)
Definition unknown : string := "未知".
Definition parse_failed : string := "解析失败".

(** The table of [translate_color]. *)
Definition color_map : list (string * string) :=
  [ ("Black", "黑色"); ("White", "白色"); ("Red", "红色"); ("Blue", "蓝色");
    ("Green", "绿色"); ("Yellow", "黄色"); ("Orange", "橙色");
    ("Purple", "紫色"); ("Pink", "粉色"); ("Gray", "灰色"); ("Grey", "灰色");
    ("Silver", "银色"); ("Gold", "金色"); ("Bronze", "青铜色");
    ("Cyan", "青色"); ("Magenta", "洋红色"); ("Beige", "米色");
    ("Brown", "棕色"); ("Transparent", "透明"); ("Clear", "透明");
    ("Translucent", "半透明"); ("Hot Pink", "热粉色");
    ("Dark Gray", "深灰色"); ("Dark Grey", "深灰色");
    ("Light Gray", "浅灰色"); ("Light Grey", "浅灰色");
    ("Blue Gray", "蓝灰色"); ("Blue Grey", "蓝灰色");
    ("Bambu Green", "拓竹绿"); ("Apple Green", "苹果绿");
    ("Grass Green", "草绿色"); ("Forest Green", "森林绿");
    ("Lime Green", "柠檬绿"); ("Lake Blue", "湖蓝色");
    ("Ice Blue", "冰蓝色"); ("Sky Blue", "天蓝色");
    ("Marine Blue", "海蓝色"); ("Royal Purple", "皇室紫");
    ("Lilac Purple", "丁香紫"); ("Scarlet Red", "猩红色");
    ("Lemon Yellow", "柠檬黄"); ("Ivory White", "象牙白");
    ("Jade White", "玉白色"); ("Cream", "奶油色");
    ("Desert Tan", "沙漠棕"); ("Peanut Brown", "花生棕");
    ("Dark Brown", "深棕色"); ("Terracotta", "赤陶色");
    ("Charcoal", "炭黑色"); ("Ash Gray", "灰白色");
    ("Nardo Gray", "纳多灰"); ("Nebulae", "星云色");
    ("Blue Hawaii (Blue-Green)", "夏威夷蓝（蓝绿色）");
    ("Gilded Rose (Pink-Gold)", "镀金玫瑰（粉金色）");
    ("Midnight Blaze (Blue-Red)", "午夜烈焰（蓝红色）");
    ("Neon City (Blue-Magenta)", "霓虹城市（蓝洋红色）") ].

Fixpoint assoc (key : string) (l : list (string * string)) : option string :=
  match l with
  | [] => None
  | (k, v) :: l' => if String.eqb key k then Some v else assoc key l'
  end.

(** [color_map.get(english_color, english_color)] *)
Definition translate_color (english_color : string) : string :=
  match assoc english_color color_map with
  | Some chinese => chinese
  | None => english_color
  end.

(** [extract_path_info]: the five returned values are material category,
    material type, colour, UID and the colour as displayed.  The indexing
    [relevant_parts[0..3]] under its two length tests is the pattern
    below. *)
Definition extract_path_info (file_path : path)
  : string * string * string * string * string :=
  let path_parts := file_path in
  let relevant_parts :=
    List.filter (λ part, negb (Py.str_in part ["."; ".."])) path_parts in
  match relevant_parts with
  | material_category :: material_type :: color :: rest =>
      let uid := match rest with
                 | part3 :: _ => part3
                 | [] => unknown
                 end in
      let color_chinese := translate_color color in
      let color_display :=
        if negb (String.eqb color_chinese color)
        then color_chinese +:+ "/" +:+ color
        else color in
      (material_category, material_type, color, uid, color_display)
  | _ => (unknown, unknown, unknown, unknown, unknown)
  end.

(** The body of the loop of [find_rfid_files]. *)
Definition find_rfid_body (rfid_files : list path)
    (root : path) (dirs files : list string) : list path * list string :=
  if bool_decide (root = base_path) then
    (rfid_files,
     if Py.str_in "scripts" dirs then Py.list_remove "scripts" dirs else dirs)
  else if Py.str_in "scripts" root then (rfid_files, dirs)
  else
    let current_dir := path_name root in
    if is_uid_dir_excel current_dir then
      ((rfid_files ++
        map (path_join root)
            (List.filter (λ file, Py.endswith file "dump.bin") files)),
       dirs)
    else (rfid_files, dirs).

Definition find_rfid_files (t : tree) (st : store) : list path :=
  os_walk find_rfid_body st base_path t [].

(** *** The tag parser and the loop of [main] *)

(** The values the parser of [parse.py] hands over: [None], numbers,
    strings, dictionaries and instances with attributes. *)
Inductive pyobj : Type :=
| PNone
| PInt (n : Z)
| PStr (s : string)
| PDict (d : gmap string pyobj)
| PObj (attrs : gmap string pyobj).

(** [bool(v)], what [if tag:] tests. *)
Definition truthy (v : pyobj) : bool :=
  match v with
  | PNone => false
  | PInt n => negb (n =? 0)%Z
  | PStr s => negb (String.eqb s "")
  | PDict d => negb (size d =? 0)%nat
  | PObj _ => true
  end.

(** [v.get(key, default)] *)
Definition dict_get (v : pyobj) (key : string) (default : pyobj) : result pyobj :=
  match v with
  | PDict d =>
      match d !! key with
      | Some x => Ok x
      | None => Ok default
      end
  | _ => Raise AttributeError
  end.

(** [hasattr(v, name)] and [v.name] *)
Definition hasattr (v : pyobj) (name : string) : bool :=
  match v with
  | PObj attrs => match attrs !! name with Some _ => true | None => false end
  | _ => false
  end.

Definition getattr (v : pyobj) (name : string) : result pyobj :=
  match v with
  | PObj attrs =>
      match attrs !! name with
      | Some x => Ok x
      | None => Raise AttributeError
      end
  | _ => Raise AttributeError
  end.

(** The parser module, taken as it is. *)
Class Parser : Type := {
  (** [parse_module.Tag(str(file_path), data)] *)
  Tag : string → list byte → result pyobj;
  (** [f'{v}'] *)
  render : pyobj → string
}.

Section WithParser.
Context `{Parser}.

(** [parse_rfid_file]: whatever is raised while reading or parsing is
    printed and turned into [None]. *)
Definition parse_rfid_file (file_path : path) (st : store) : pyobj :=
  match read_file file_path st with
  | (_, Ok data) =>
      match Tag (str_of_path file_path) data with
      | Ok tag => tag
      | Raise _ => PNone
      end
  | (_, Raise _) => PNone
  end.

(** One row of the main sheet, by column: material type, colour, UID,
    colour code, print temperature. *)
Record row : Type := Row {
  col_material_type : pyobj;
  col_color : pyobj;
  col_uid : pyobj;
  col_color_code : pyobj;
  col_print_temp : pyobj
}.

(** [tag.data.get('temperatures', {}).get(which, {}).value] when that
    object has a [value], else [None]. *)
Definition hotend (tag : pyobj) (which : string) : result pyobj :=
  data ← getattr tag "data";
  temperatures ← dict_get data "temperatures" (PDict ∅);
  unit ← dict_get temperatures which (PDict ∅);
  if hasattr unit "value" then getattr unit "value" else Ok PNone.

Definition is_none (v : pyobj) : bool :=
  match v with PNone => true | _ => false end.

(** [stats[key] += 1] on a [defaultdict(int)] *)
Definition incr (key : string) (stats : gmap string nat) : gmap string nat :=
  <[key := default 0 (stats !! key) + 1]> stats.

(** One iteration of the loop of [main] over [rfid_files]. *)
Definition main_step (st : store) (s : list row * gmap string nat)
    (file_path : path) : result (list row * gmap string nat) :=
  let '(data_list, stats) := s in
  let '(material_category, material_type, color, uid_from_path, color_display) :=
    extract_path_info file_path in
  let tag := parse_rfid_file file_path st in
  if truthy tag then
    min_temp ← hotend tag "min_hotend";
    max_temp ← hotend tag "max_hotend";
    let temp_range :=
      if negb (is_none min_temp) && negb (is_none max_temp)
      then render min_temp +:+ "-" +:+ render max_temp +:+ "°C"
      else if negb (is_none min_temp) then render min_temp +:+ "°C"
      else if negb (is_none max_temp) then render max_temp +:+ "°C"
      else unknown in
    tag_data ← getattr tag "data";
    uid ← dict_get tag_data "uid" (PStr unknown);
    filament_color ← dict_get tag_data "filament_color" (PStr unknown);
    let data := Row (PStr material_type) (PStr color_display) uid
                    filament_color (PStr temp_range) in
    Ok ((data_list ++ [data]),
        incr ("颜色_" +:+ color) (incr ("材料类型_" +:+ material_type) stats))
  else
    let data := Row (PStr material_type) (PStr color_display)
                    (PStr parse_failed) (PStr parse_failed) (PStr parse_failed) in
    Ok ((data_list ++ [data]), stats).

(** The loop of [main]: it stops at the first iteration that raises. *)
Fixpoint main_loop (st : store) (rfid_files : list path)
    (s : list row * gmap string nat) : result (list row * gmap string nat) :=
  match rfid_files with
  | [] => Ok s
  | file_path :: rest =>
      s' ← main_step st s file_path;
      main_loop st rest s'
  end.

End WithParser.

End GenExcel.

(** ** Definitions that follow the words of the specification *)

(** The path segments that count: every part but ["."] and [".."]. *)
Definition segments (file_path : path) : list string :=
  filter (λ part, part ≠ "." ∧ part ≠ "..") file_path.

#[global] Instance hex_digit_dec (c : ascii) : Decision (hex_digit c).
Proof. unfold hex_digit. apply _. Defined.


(** The value of a hexadecimal digit, from its character code. *)
Definition nibble (c : ascii) : N :=
  let n := N_of_ascii c in
  if (n <? 58)%N then (n - 48)%N else (n mod 32 + 9)%N.

(** The bytes written by a string of hexadecimal digits, two digits a
    byte, the high digit first. *)
Fixpoint hex_bytes (s : string) : list byte :=
  match s with
  | String hi (String lo s') =>
      byte_of_ascii (ascii_of_N (16 * nibble hi + nibble lo)) :: hex_bytes s'
  | _ => []
  end.

(** [FF FF FF FF FF FF], the factory default key. *)
Definition default_key : list byte := [xff; xff; xff; xff; xff; xff].






(** A document without [Card.UID]: an object that has no ["Card"], or
    whose ["Card"] is an object that has no ["UID"]. *)
Definition missing_card_uid (data : json) : Prop :=
  match data with
  | JDict top =>
      match top !! "Card" with
      | None => True
      | Some (JDict card) => card !! "UID" = None
      | Some _ => False
      end
  | _ => False
  end.

(** ** The walk of both scripts, directory by directory *)

(** [dirs] as the loop bodies of both walkers leave it: at the base path
    the [scripts] directory is taken out. *)
Definition pruned (root : path) (dirs : list string) : list string :=
  if bool_decide (root = base_path) then
    if Py.str_in "scripts" dirs then Py.list_remove "scripts" dirs else dirs
  else dirs.

(** The directories that [os.walk] yields under that pruning, in order. *)
Fixpoint visited (root : path) (t : tree) {struct t} : list path :=
  match t with
  | Node subdirs =>
      root ::
      flat_map (λ entry : string * tree,
                  if Py.str_in entry.1 (pruned root (subdirs.*1))
                  then visited (path_join root entry.1) entry.2
                  else [])
               subdirs
  end.

(** What [find_missing_key_files] appends for one directory. *)
Definition select_missing (root : path) (files : list string)
  : list (path * string) :=
  if bool_decide (root = base_path) then []
  else if Py.str_in "scripts" root then []
  else if is_uid_dir (path_name root) then
    match List.filter (λ f, Py.endswith f "dump.json") files,
          List.filter (λ f, Py.endswith f "key.bin") files with
    | json_file :: _, [] => [(root, json_file)]
    | _, _ => []
    end
  else [].

(** What [find_rfid_files] appends for one directory. *)
Definition select_rfid (root : path) (files : list string) : list path :=
  if bool_decide (root = base_path) then []
  else if Py.str_in "scripts" root then []
  else if is_uid_dir_excel (path_name root) then
    map (path_join root) (List.filter (λ file, Py.endswith file "dump.bin") files)
  else [].

(** ** What the synthesis can see of a directory *)

(** The candidates of [find_missing_key_files] in a directory. *)
Definition json_files (st : store) (d : path) : list string :=
  List.filter (λ f, Py.endswith f "dump.json") (files_of st d).

Definition key_files (st : store) (d : path) : list string :=
  List.filter (λ f, Py.endswith f "key.bin") (files_of st d).

(** The content of a file of a directory, if both exist. *)
Definition read (st : store) (d : path) (name : string) : option (list byte) :=
  st !! d ≫= file_get name.

(** [st'] is [st] with key files added or overwritten: every other file
    reads the same, the documents are listed the same, and a directory that
    had a key file still has one. *)
Definition grows (st st' : store) : Prop :=
  ∀ d,
    (∀ name, Py.endswith name "key.bin" = false →
             read st' d name = read st d name)
    ∧ json_files st' d = json_files st d
    ∧ (key_files st d ≠ [] → key_files st' d ≠ []).

(** ** Concrete inputs used by the examples *)

Module Examples.

(** A tag directory four levels below the root, holding one dump. *)
Definition black_dir : path := [".."; "PLA"; "PLA Basic"; "Black"; "ABCDEF01"].

Definition black_dump : path := path_join black_dir "hf-mf-ABCDEF01-dump.bin".

Definition dump_store : store :=
  {[ black_dir := [("hf-mf-ABCDEF01-dump.bin", [x00; x01])] ]}.

(** A parser that raises on every file. *)
Definition raising_parser : GenExcel.Parser := {|
  GenExcel.Tag := λ _ _, Raise ValueError;
  GenExcel.render := λ _, EmptyString
|}.

(** Key-Dump Documents.  The first one has a single sector entry, for
    sector 3, with a KeyA only. *)
Definition card : json := JDict {[ "UID" := JStr "04112233445566" ]}.

Definition doc_sector3 : json :=
  JDict (<[ "Card" := card ]>
         {[ "SectorKeys" :=
              JDict {[ "3" := JDict {[ "KeyA" := JStr "AABBCCDDEEFF" ]} ]} ]}).

Definition doc_no_sector_keys : json := JDict {[ "Card" := card ]}.

Definition doc_empty_sector_keys : json :=
  JDict (<[ "Card" := card ]> {[ "SectorKeys" := JDict ∅ ]}).

Definition doc_short_key : json :=
  JDict (<[ "Card" := card ]>
         {[ "SectorKeys" :=
              JDict {[ "0" := JDict {[ "KeyA" := JStr "AABB" ]} ]} ]}).

Definition doc_bad_key : json :=
  JDict (<[ "Card" := card ]>
         {[ "SectorKeys" :=
              JDict {[ "7" := JDict {[ "KeyB" := JStr "GGHHIIJJKKLL" ]} ]} ]}).

Definition doc_no_uid : json :=
  JDict (<[ "Card" := JDict ∅ ]> {[ "SectorKeys" := JDict ∅ ]}).

(** A platform for the examples: the first byte of a file tells which of
    the documents above it holds, and a file name is accepted when it has
    no path separator. *)
Definition toy_platform : Platform := {|
  json_load := λ text,
    match text with
    | [x01] => Some doc_sector3
    | [x02] => Some doc_no_sector_keys
    | [x03] => Some doc_empty_sector_keys
    | [x04] => Some doc_short_key
    | [x05] => Some doc_bad_key
    | [x06] => Some doc_no_uid
    | _ => None
    end;
  py_format := λ _, "None";
  os_accepts := λ name, negb (Py.char_in "/" name)
|}.

Definition json_name : string := "hf-mf-ABCDEF01-dump.json".

(** The tag directory with one document in it. *)
Definition json_store (text : list byte) : store :=
  {[ black_dir := [(json_name, text)] ]}.

(** A project with a tag directory under [PLA] and another one, of the
    same shape, under [scripts]. *)
Definition scripts_dir : path := [".."; "scripts"; "ABCDEF02"].

Definition project : tree :=
  Node [ ("PLA", Node [ ("PLA Basic",
            Node [ ("Black", Node [ ("ABCDEF01", Node []) ]) ]) ]);
         ("scripts", Node [ ("ABCDEF02", Node []) ]) ].

Definition project_store (text : list byte) : store :=
  <[ scripts_dir := [("hf-mf-ABCDEF02-dump.json", [x01]);
                     ("hf-mf-ABCDEF02-dump.bin", [x00])] ]>
  (<[ black_dir := [(json_name, text); ("hf-mf-ABCDEF01-dump.bin", [x00])] ]> ∅).

(** Three tag directories; the document of the second has no UID. *)
Definition white_dir : path := [".."; "PLA"; "PLA Basic"; "White"; "ABCDEF03"].
Definition red_dir : path := [".."; "PLA"; "PLA Basic"; "Red"; "ABCDEF04"].

Definition batch_store : store :=
  <[ black_dir := [(json_name, [x01])] ]>
  (<[ white_dir := [("hf-mf-ABCDEF03-dump.json", [x06])] ]>
   (<[ red_dir := [("hf-mf-ABCDEF04-dump.json", [x03])] ]> ∅)).


End Examples.

(** ** More concrete inputs *)

Module MoreExamples.

(** The document with sector 3 only, and the same with one more entry
    under a key that names no sector. *)
Definition top3 : gmap string json :=
  <[ "Card" := Examples.card ]>
  {[ "SectorKeys" :=
       JDict {[ "3" := JDict {[ "KeyA" := JStr "AABBCCDDEEFF" ]} ]} ]}.

Definition top3_extra : gmap string json :=
  <[ "SectorKeys" :=
       JDict (<[ "16" := JStr "no entry" ]>
              {[ "3" := JDict {[ "KeyA" := JStr "AABBCCDDEEFF" ]} ]}) ]> top3.

Definition platform : Platform := {|
  json_load := λ text,
    match text with
    | [x01] => Some (JDict top3)
    | [x07] => Some (JDict top3_extra)
    | _ => None
    end;
  py_format := λ _, "None";
  os_accepts := λ name, negb (Py.char_in "/" name)
|}.

End MoreExamples.

(** ** The fields of [extract_path_info] that go into a row *)

Definition path_material_type (file_path : path) : string :=
  (GenExcel.extract_path_info file_path).1.1.1.2.

Definition path_color (file_path : path) : string :=
  (GenExcel.extract_path_info file_path).1.1.2.

Definition path_color_display (file_path : path) : string :=
  (GenExcel.extract_path_info file_path).2.

(** ** The names listed in a directory, key files apart *)

(** [st'] lists in every directory the names that [st] lists there, in the
    same order, except for names ending with [key.bin]. *)
Definition keeps_other_names (st st' : store) : Prop :=
  ∀ (d : path) (P : string → bool),
    (∀ n, Py.endswith n "key.bin" = true → P n = false) →
    List.filter P (files_of st' d) = List.filter P (files_of st d).

(** ** One iteration of the synthesis, seen from its directory *)

(** What [generate_key_file] does with the listing of its directory: the
    new listing, if it writes, and the returned triple. *)
Definition generate_in `{Platform} (directory : path) (json_filename : string)
    (entry : option listing)
  : option listing * (bool * GenMissingKey.outcome * option path) :=
  match entry with
  | None => (None, (false, GenMissingKey.Msg FileNotFoundError, None))
  | Some l =>
      match file_get json_filename l with
      | None => (None, (false, GenMissingKey.Msg FileNotFoundError, None))
      | Some text =>
          match json_load text with
          | None => (None, (false, GenMissingKey.Msg JSONDecodeError, None))
          | Some data =>
              match GenMissingKey.decode_document data with
              | Raise e => (None, (false, GenMissingKey.Msg e, None))
              | Ok (uid, key_bytes) =>
                  let name := GenMissingKey.key_file_name uid in
                  if os_accepts name
                  then (Some (file_put name key_bytes l),
                        (true, GenMissingKey.Len (length key_bytes),
                         Some (path_join directory name)))
                  else (None, (false, GenMissingKey.Msg OSError, None))
              end
          end
      end
  end.

Definition put_listing (d : path) (new : option listing) (st : store) : store :=
  match new with
  | Some l => <[d := l]> st
  | None => st
  end.



(** ** The tree without its top-level [scripts] directory *)

Definition without_scripts (t : tree) : tree :=
  match t with
  | Node subdirs =>
      Node (List.filter (λ entry : string * tree,
                           negb (String.eqb entry.1 "scripts")) subdirs)
  end.

(** A loop body that only records the directories it is given, and prunes
    like the bodies of the two scripts. *)
Definition record_body (acc : list path) (root : path)
    (dirs files : list string) : list path * list string :=
  (acc ++ [root], pruned root dirs).

(** ** The summary sheet of [gen_excel.main] *)

Module Summary.

(** The two parts of [s.split('_', 1)] when [s] has an underscore. *)
Fixpoint split_underscore (s : string) : option (string * string) :=
  match s with
  | EmptyString => None
  | String c s' =>
      if Ascii.eqb c "_" then Some (EmptyString, s')
      else
        match split_underscore s' with
        | Some (before, after) => Some (String c before, after)
        | None => None
        end
  end.

(** [key.split('_', 1)]: one part when there is no underscore. *)
Definition split1 (key : string) : list string :=
  match split_underscore key with
  | Some (before, after) => [before; after]
  | None => [key]
  end.

(** The order of [sorted] on the items of a dictionary: by key, then by
    count. *)
Definition item_le (a b : string * nat) : Prop :=
  (a.1 ≠ b.1 ∧ String.le a.1 b.1) ∨ (a.1 = b.1 ∧ a.2 ≤ b.2).

#[global] Instance item_le_dec : RelDecision item_le.
Proof. intros a b. unfold item_le. apply _. Defined.

(** [sorted(stats.items())] *)
Definition sorted_items (stats : gmap string nat) : list (string * nat) :=
  merge_sort item_le (map_to_list stats).

(** A row of the summary: category, value, count. *)
Record stat_row : Type := StatRow {
  stat_category : string;
  stat_value : string;
  stat_count : nat
}.

(** The loop that fills [stats_data]; unpacking [key.split('_', 1)] into
    two names raises [ValueError] unless it has two parts. *)
Fixpoint stats_loop (items : list (string * nat)) (stats_data : list stat_row)
  : result (list stat_row) :=
  match items with
  | [] => Ok stats_data
  | (key, count) :: rest =>
      match split1 key with
      | [category; value] =>
          stats_loop rest (stats_data ++ [StatRow category value count])
      | _ => Raise ValueError
      end
  end.

Definition stats_data (stats : gmap string nat) : result (list stat_row) :=
  stats_loop (sorted_items stats) [].



End Summary.

(** ** Counting the parsed files *)

(** [stats[key]] read on a [defaultdict(int)]. *)
Definition counter (stats : gmap string nat) (key : string) : nat :=
  default 0 (stats !! key).

(** The files of a list that the parser accepts and that satisfy [p]. *)
Definition parsed_files `{GenExcel.Parser} (st : store) (p : path → bool)
    (rfid_files : list path) : list path :=
  List.filter
    (λ f, GenExcel.truthy (GenExcel.parse_rfid_file f st) && p f) rfid_files.

(** A parser for the examples: every dump is a tag whose data hold a UID. *)
Definition reading_parser : GenExcel.Parser := {|
  GenExcel.Tag := λ _ _,
    Ok (GenExcel.PObj
          {[ "data" := GenExcel.PDict {[ "uid" := GenExcel.PStr "ABCDEF01" ]} ]});
  GenExcel.render := λ _, EmptyString
|}.

(** A parser whose tags hold a string where the temperatures should be. *)
Definition malformed_parser : GenExcel.Parser := {|
  GenExcel.Tag := λ _ _,
    Ok (GenExcel.PObj
          {[ "data" :=
               GenExcel.PDict {[ "temperatures" := GenExcel.PStr "hot" ]} ]});
  GenExcel.render := λ _, EmptyString
|}.

(** The directories of a tree, by their path below its root. *)
Fixpoint has_dir (rel : list string) (t : tree) {struct rel} : Prop :=
  match rel with
  | [] => True
  | name :: rest =>
      match t with
      | Node subdirs =>
          Exists (λ entry : string * tree,
                    entry.1 = name ∧ has_dir rest entry.2) subdirs
      end
  end.

(** * Properties *)

(** ** Suffixes of strings *)

Lemma string_app_cons (c : ascii) (a b : string) :
  String c a +:+ b = String c (a +:+ b).
Proof. reflexivity. Qed.

Lemma string_length_app (a b : string) :
  String.length (a +:+ b) = String.length a + String.length b.
Proof.
  induction a as [|c a IH]; [reflexivity|].
  rewrite string_app_cons. cbn. rewrite IH. reflexivity.
Qed.

Lemma string_app_assoc (a b c : string) : (a +:+ b) +:+ c = a +:+ b +:+ c.
Proof.
  induction a as [|x a IH]; [reflexivity|].
  rewrite !string_app_cons, IH. reflexivity.
Qed.

Lemma list_ascii_of_string_app (a b : string) :
  list_ascii_of_string (a +:+ b)
  = list_ascii_of_string a ++ list_ascii_of_string b.
Proof.
  induction a as [|x a IH]; [reflexivity|].
  rewrite string_app_cons. cbn. rewrite IH. reflexivity.
Qed.

Lemma substring_0_length (s : string) : substring 0 (String.length s) s = s.
Proof. induction s as [|c s IH]; [reflexivity|]. cbn. rewrite IH. reflexivity. Qed.

Lemma substring_app_skip (a b : string) (k : nat) :
  substring (String.length a) k (a +:+ b) = substring 0 k b.
Proof.
  induction a as [|c a IH]; [reflexivity|].
  rewrite string_app_cons. cbn. exact IH.
Qed.

Lemma substring_split (s : string) (m : nat) :
  m ≤ String.length s →
  s = substring 0 m s +:+ substring m (String.length s - m) s.
Proof.
  revert m. induction s as [|c s IH]; intros m Hm.
  - destruct m; [reflexivity | simpl in Hm; lia].
  - destruct m as [|m].
    + cbn. rewrite substring_0_length. reflexivity.
    + simpl in Hm. cbn. rewrite string_app_cons, <- IH by lia. reflexivity.
Qed.

(** [s.endswith(suffix)] holds exactly when [s] is some prefix followed by
    [suffix]. *)
Lemma endswith_iff (s suffix : string) :
  Py.endswith s suffix = true ↔ ∃ pre, s = pre +:+ suffix.
Proof.
  unfold Py.endswith. rewrite andb_true_iff, Nat.leb_le, String.eqb_eq. split.
  - intros [Hle Hsub].
    exists (substring 0 (String.length s - String.length suffix) s).
    pose proof (substring_split s (String.length s - String.length suffix))
      as Hsplit.
    replace (String.length s - (String.length s - String.length suffix))
      with (String.length suffix) in Hsplit by lia.
    rewrite Hsub in Hsplit. apply Hsplit. lia.
  - intros [pre ->]. rewrite string_length_app. split; [lia|].
    replace (String.length pre + String.length suffix - String.length suffix)
      with (String.length pre) by lia.
    rewrite substring_app_skip. apply substring_0_length.
Qed.

(** No name ends both with [dump.json] and with [key.bin]. *)
Lemma endswith_json_not_key (name : string) :
  Py.endswith name "dump.json" = true → Py.endswith name "key.bin" = false.
Proof.
  intros Hjson. destruct (Py.endswith name "key.bin") eqn:Hkey; [|reflexivity].
  apply endswith_iff in Hjson as [p1 E1], Hkey as [p2 E2].
  apply (f_equal list_ascii_of_string) in E1, E2.
  rewrite list_ascii_of_string_app in E1, E2. rewrite E1 in E2.
  change (list_ascii_of_string "dump.json")
    with (list_ascii_of_string "dump.js" ++ list_ascii_of_string "on") in E2.
  change (list_ascii_of_string "key.bin")
    with (list_ascii_of_string "key.b" ++ list_ascii_of_string "in") in E2.
  rewrite !app_assoc in E2.
  apply app_inj_2 in E2 as [_ E2]; [discriminate E2 | reflexivity].
Qed.

(** ** The directory-name test *)

Lemma char_in_hex_literal_decide c :
  Py.char_in c "0123456789ABCDEFabcdef" = bool_decide (hex_digit c).
Proof. destruct c as [[] [] [] [] [] [] [] []]; vm_compute; reflexivity. Qed.

Lemma char_in_hex_literal c :
  Py.char_in c "0123456789ABCDEFabcdef" = true ↔ hex_digit c.
Proof. rewrite char_in_hex_literal_decide. apply bool_decide_eq_true. Qed.

Lemma all_chars_Forall (p : ascii → bool) (P : ascii → Prop) s :
  (∀ c, p c = true ↔ P c) →
  Py.all_chars p s = true ↔ Forall_chars P s.
Proof.
  intros Hp. induction s as [|c s IH]; simpl.
  - tauto.
  - rewrite andb_true_iff, Hp, IH. tauto.
Qed.

(** C6: a directory name is taken for a tag directory exactly when it is 8
    characters long and every character is a hexadecimal digit of either
    case; the two scripts apply the same test. *)
Theorem is_uid_dir_iff (name : string) :
  (is_uid_dir name = true ↔
     String.length name = 8 ∧ Forall_chars hex_digit name)
  ∧ is_uid_dir_excel name = is_uid_dir name.
Proof.
  split; [|reflexivity].
  unfold is_uid_dir.
  rewrite andb_true_iff, Nat.eqb_eq.
  rewrite (all_chars_Forall _ hex_digit) by apply char_in_hex_literal.
  reflexivity.
Qed.

(** ** Path information of the report *)

Lemma relevant_parts_segments (file_path : path) :
  List.filter (λ part, negb (Py.str_in part ["."; ".."])) file_path
  = segments file_path.
Proof.
  unfold segments. induction file_path as [|part l IH]; [reflexivity|].
  rewrite filter_cons. cbn [List.filter]. rewrite IH.
  unfold Py.str_in. simpl existsb. rewrite orb_false_r.
  destruct (String.eqb_spec part "."), (String.eqb_spec part "..");
    subst; simpl; try destruct (decide _); naive_solver.
Qed.

(** C8, as amended: with four segments or more, segments 0 to 3 are the
    material category, the material type, the colour and the UID; with
    exactly three, the first three fields are read the same way and only the
    UID is the unknown place-holder; with fewer than three, the four fields
    (and the displayed colour) are the unknown place-holder. *)
Theorem extract_path_info_positions (file_path : path)
    (material_category material_type color uid color_display : string) :
  GenExcel.extract_path_info file_path
    = (material_category, material_type, color, uid, color_display) →
  let segs := segments file_path in
  (3 ≤ length segs →
     segs !! 0 = Some material_category ∧ segs !! 1 = Some material_type
     ∧ segs !! 2 = Some color)
  ∧ (4 ≤ length segs → segs !! 3 = Some uid)
  ∧ (length segs = 3 → uid = GenExcel.unknown)
  ∧ (length segs < 3 →
       material_category = GenExcel.unknown ∧ material_type = GenExcel.unknown
       ∧ color = GenExcel.unknown ∧ uid = GenExcel.unknown
       ∧ color_display = GenExcel.unknown).
Proof.
  unfold GenExcel.extract_path_info.
  rewrite relevant_parts_segments.
  destruct (segments file_path) as [|a [|b [|c [|d rest]]]]; simpl;
    intros [= <- <- <- <- <-]; repeat split; intros; try lia; reflexivity.
Qed.

(** A dump of a tag directory four levels below the root. *)
Lemma extract_path_info_positions_witness :
  let file_path :=
    [".."; "PLA"; "PLA Basic"; "Black"; "ABCDEF01"; "hf-mf-ABCDEF01-dump.bin"] in
  segments file_path !! 1 = Some "PLA Basic"
  ∧ segments file_path !! 3 = Some "ABCDEF01".
Proof.
  intros file_path.
  destruct (extract_path_info_positions file_path
              "PLA" "PLA Basic" "Black" "ABCDEF01" "黑色/Black" eq_refl)
    as (P012 & P3 & _).
  split.
  - apply P012. vm_compute. lia.
  - apply P3. vm_compute. lia.
Defined.

(** C8 as stated fails: a path with three segments has fewer than four, yet
    its first three fields are read from the path. *)
Lemma extract_path_info_three_segments :
  length (segments [".."; "PLA"; "PLA Basic"; "Black"]) < 4
  ∧ GenExcel.extract_path_info [".."; "PLA"; "PLA Basic"; "Black"]
    = ("PLA", "PLA Basic", "Black", GenExcel.unknown, "黑色/Black")
  ∧ "PLA" ≠ GenExcel.unknown.
Proof. vm_compute. repeat split; [lia | discriminate]. Qed.

(** ** Rows of the report when parsing fails *)

Section ParseFailure.
Context `{GenExcel.Parser}.

Lemma parse_rfid_file_fails (file_path : path) (st : store) (data : list byte) :
  (read_file file_path st).2 = Ok data →
  (∃ e, GenExcel.Tag (str_of_path file_path) data = Raise e)
  ∨ GenExcel.Tag (str_of_path file_path) data = Ok GenExcel.PNone →
  GenExcel.parse_rfid_file file_path st = GenExcel.PNone.
Proof.
  intros Hread Hparse. unfold GenExcel.parse_rfid_file.
  destruct (read_file file_path st) as [st' r]. simpl in Hread. subst r.
  destruct Hparse as [[e ->] | ->]; reflexivity.
Qed.

(** C9, as amended: for a dump whose parse call raises or returns [None],
    the iteration does not raise and appends exactly one row; its UID,
    colour code and print temperature are the failure place-holder, while
    its material type and colour are still the ones read from the path.
    The statistics are untouched and the loop goes on with the remaining
    files. *)
Theorem main_step_parse_failure (st : store) (file_path : path)
    (data : list byte) (data_list : list GenExcel.row)
    (stats : gmap string nat) (rest : list path)
    (material_category material_type color uid color_display : string) :
  (read_file file_path st).2 = Ok data →
  (∃ e, GenExcel.Tag (str_of_path file_path) data = Raise e)
  ∨ GenExcel.Tag (str_of_path file_path) data = Ok GenExcel.PNone →
  GenExcel.extract_path_info file_path
    = (material_category, material_type, color, uid, color_display) →
  let failed_row :=
    GenExcel.Row (GenExcel.PStr material_type) (GenExcel.PStr color_display)
      (GenExcel.PStr GenExcel.parse_failed)
      (GenExcel.PStr GenExcel.parse_failed)
      (GenExcel.PStr GenExcel.parse_failed) in
  GenExcel.main_step st (data_list, stats) file_path
    = Ok (data_list ++ [failed_row], stats)
  ∧ GenExcel.main_loop st (file_path :: rest) (data_list, stats)
    = GenExcel.main_loop st rest (data_list ++ [failed_row], stats).
Proof.
  intros Hread Hparse Hinfo failed_row.
  assert (GenExcel.main_step st (data_list, stats) file_path
          = Ok (data_list ++ [failed_row], stats)) as Hstep.
  { unfold GenExcel.main_step. rewrite Hinfo.
    rewrite (parse_rfid_file_fails _ _ _ Hread Hparse). reflexivity. }
  split; [exact Hstep|].
  cbn [GenExcel.main_loop]. rewrite Hstep. reflexivity.
Qed.

End ParseFailure.

(** A dump on which the parser raises. *)
Lemma main_step_parse_failure_witness :
  GenExcel.main_step (H := Examples.raising_parser) Examples.dump_store ([], ∅)
    Examples.black_dump
  = Ok ([GenExcel.Row (GenExcel.PStr "PLA Basic") (GenExcel.PStr "黑色/Black")
           (GenExcel.PStr GenExcel.parse_failed)
           (GenExcel.PStr GenExcel.parse_failed)
           (GenExcel.PStr GenExcel.parse_failed)], ∅).
Proof.
  refine (proj1 (main_step_parse_failure (H := Examples.raising_parser)
    Examples.dump_store Examples.black_dump [x00; x01] [] ∅ []
    "PLA" "PLA Basic" "Black" "ABCDEF01" "黑色/Black" _ _ _)).
  - vm_compute. reflexivity.
  - left. exists ValueError. reflexivity.
  - vm_compute. reflexivity.
Defined.

(** C9 as stated fails: the row of a dump that could not be parsed carries
    the material type and the colour of its path, not the failure
    place-holder, in its first two fields. *)
Lemma main_step_failed_row_keeps_path_fields :
  ∃ r, GenExcel.main_step (H := Examples.raising_parser)
         Examples.dump_store ([], ∅) Examples.black_dump = Ok ([r], ∅)
       ∧ GenExcel.col_material_type r = GenExcel.PStr "PLA Basic"
       ∧ GenExcel.col_material_type r ≠ GenExcel.PStr GenExcel.parse_failed
       ∧ GenExcel.col_color r ≠ GenExcel.PStr GenExcel.parse_failed.
Proof.
  eexists. split; [vm_compute; reflexivity|].
  repeat split; vm_compute; discriminate.
Qed.

(** ** Decoding of hexadecimal keys *)

Lemma digit_value_hex_digit c :
  bool_decide (hex_digit c) = true →
  Hex.digit_value c = Some (nibble c) ∧ Hex.is_space c = false.
Proof.
  destruct c as [[] [] [] [] [] [] [] []]; vm_compute;
    first [discriminate | split; reflexivity].
Qed.

Lemma digit_value_not_hex c :
  bool_decide (hex_digit c) = false → Hex.digit_value c = None.
Proof.
  destruct c as [[] [] [] [] [] [] [] []]; vm_compute;
    first [discriminate | reflexivity].
Qed.

(** On a string of hexadecimal digits of even length, [bytes.fromhex]
    returns one byte for every two digits. *)
Lemma fromhex_hex_digits (s : string) :
  Py.all_chars (λ c, bool_decide (hex_digit c)) s = true →
  Nat.even (String.length s) = true →
  Hex.fromhex s = Ok (hex_bytes s)
  ∧ 2 * length (hex_bytes s) = String.length s.
Proof.
  revert s. fix IH 1. intros [|c [|d s]].
  - intros _ _. split; reflexivity.
  - intros _ Hev. discriminate Hev.
  - intros Hall Hev. simpl in Hall.
    apply andb_prop in Hall as [Hc Hall]. apply andb_prop in Hall as [Hd Hall].
    apply digit_value_hex_digit in Hc as [Hc Hsc], Hd as [Hd _].
    destruct (IH s Hall Hev) as [E L].
    cbn [Hex.fromhex hex_bytes]. rewrite Hsc, Hc, Hd, E.
    split; [reflexivity|]. simpl. lia.
Qed.


(** ** The two loops over the sectors *)

Lemma default_key_fromhex : Hex.fromhex "FFFFFFFFFFFF" = Ok default_key.
Proof. reflexivity. Qed.






(** ** [generate_key_file], stage by stage *)

Section GenerateKeyFile.
Context `{Platform}.

Lemma generate_key_file_stages (directory : path) (json_filename : string)
    (st : store) :
  GenMissingKey.generate_key_file directory json_filename st
  = match GenMissingKey.load_document directory json_filename st
          ≫= GenMissingKey.decode_document with
    | Ok (uid, key_bytes) =>
        GenMissingKey.store_key_file directory uid key_bytes st
    | Raise e => (st, (false, GenMissingKey.Msg e, None))
    end.
Proof.
  unfold GenMissingKey.generate_key_file, GenMissingKey.generate_key_file_try,
    GenMissingKey.load_document, GenMissingKey.decode_document,
    GenMissingKey.store_key_file.
  unfold mbind, Fs_mbind, result_mbind, result_bind, read_file, write_file,
    lift, path_join, mret, Fs_mret, result_mret.
  rewrite !last_snoc, !removelast_last.
  destruct (st !! directory) as [l|] eqn:Hdir; [|reflexivity].
  destruct (file_get json_filename l) as [text|]; [|reflexivity].
  destruct (json_load text) as [data|]; [|reflexivity].
  destruct (getitem data "Card") as [card|]; [|reflexivity].
  destruct (getitem card "UID") as [uid|]; [|reflexivity].
  destruct (getitem data "SectorKeys") as [sector_keys|]; [|reflexivity].
  destruct (GenMissingKey.collect_keys "KeyA" sector_keys (seq 0 16) [])
    as [keysA|]; [|reflexivity].
  destruct (GenMissingKey.collect_keys "KeyB" sector_keys (seq 0 16) keysA)
    as [key_bytes|]; [|reflexivity].
  rewrite last_snoc, removelast_last, Hdir.
  destruct (os_accepts (GenMissingKey.key_file_name uid)); reflexivity.
Qed.


End GenerateKeyFile.

Section Synthesis.
Context `{Platform}.




End Synthesis.


(** ** Failures of the synthesis *)

(** A string with a character that is neither a hexadecimal digit nor
    white space is refused by [bytes.fromhex]. *)
Lemma fromhex_rejects_char (s : string) (c : ascii) :
  c ∈ list_ascii_of_string s →
  ¬ hex_digit c → Hex.is_space c = false →
  Hex.fromhex s = Raise ValueError.
Proof.
  intros Hin Hnot Hsp.
  assert (Hex.digit_value c = None) as Hc
    by (apply digit_value_not_hex, bool_decide_eq_false; exact Hnot).
  remember (String.length s) as n eqn:Hn.
  assert (String.length s ≤ n) as Hle by lia. clear Hn.
  revert s Hin Hle. induction n as [|n IH]; intros [|a s1] Hin Hle;
    try (apply elem_of_nil in Hin as []); [simpl in Hle; lia|].
  cbn [list_ascii_of_string] in Hin. cbn [Hex.fromhex].
  simpl in Hle.
  destruct (Hex.is_space a) eqn:Hsa.
  - apply IH; [|lia]. apply elem_of_cons in Hin as [->|Hin]; [congruence|].
    exact Hin.
  - destruct (Hex.digit_value a) as [top|] eqn:Ha; [|reflexivity].
    apply elem_of_cons in Hin as [->|Hin]; [congruence|].
    destruct s1 as [|b s2]; [reflexivity|].
    destruct (Hex.digit_value b) as [bot|] eqn:Hb; [|reflexivity].
    cbn [list_ascii_of_string] in Hin. simpl in Hle.
    apply elem_of_cons in Hin as [->|Hin]; [congruence|].
    rewrite (IH s2 Hin) by lia. reflexivity.
Qed.

(** A loop over sectors raises as soon as the key of one of them cannot be
    decoded (it may raise earlier, for another sector). *)
Lemma collect_keys_raises (sk entry : gmap string json) (field s : string)
    (sectors : list nat) (sector : nat) (e : exn) (key_bytes : list byte) :
  sector ∈ sectors →
  sk !! Py.str_of_nat sector = Some (JDict entry) →
  entry !! field = Some (JStr s) →
  Hex.fromhex s = Raise e →
  ∃ e', GenMissingKey.collect_keys field (JDict sk) sectors key_bytes = Raise e'.
Proof.
  intros Hin Hentry Hkey Hbad. revert key_bytes.
  induction sectors as [|s0 rest IH]; intros key_bytes.
  - apply elem_of_nil in Hin as [].
  - cbn [GenMissingKey.collect_keys].
    destruct (decide (s0 = sector)) as [->|Hne].
    + cbn [get mbind result_mbind result_bind]. rewrite Hentry.
      cbn [get mbind result_mbind result_bind]. rewrite Hkey.
      cbn [bytes_fromhex mbind result_mbind result_bind]. rewrite Hbad. eauto.
    + apply elem_of_cons in Hin as [->|Hin]; [congruence|].
      unfold mbind, result_mbind, result_bind.
      destruct (get (JDict sk) (Py.str_of_nat s0) (JDict ∅)); [|eauto].
      destruct (get _ field _); [|eauto].
      destruct (bytes_fromhex _); [|eauto].
      apply IH, Hin.
Qed.

Section SynthesisFailures.
Context `{Platform}.

Lemma generate_key_file_raise (directory : path) (json_filename : string)
    (st : store) (e : exn) :
  GenMissingKey.load_document directory json_filename st
    ≫= GenMissingKey.decode_document = Raise e →
  GenMissingKey.generate_key_file directory json_filename st
  = (st, (false, GenMissingKey.Msg e, None)).
Proof. intros E. rewrite generate_key_file_stages, E. reflexivity. Qed.

Lemma load_document_ok (directory : path) (json_filename : string)
    (st : store) (l : listing) (text : list byte) (data : json) :
  st !! directory = Some l →
  file_get json_filename l = Some text →
  json_load text = Some data →
  GenMissingKey.load_document directory json_filename st = Ok data.
Proof.
  intros Hdir Hfile Hload. unfold GenMissingKey.load_document.
  rewrite Hdir, Hfile, Hload. reflexivity.
Qed.

Lemma decode_document_missing_uid (data : json) :
  missing_card_uid data →
  ∃ e, GenMissingKey.decode_document data = Raise e.
Proof.
  unfold missing_card_uid, GenMissingKey.decode_document, getitem.
  destruct data as [| | | | | |top]; try contradiction.
  destruct (top !! "Card") as [[| | | | | |card]|]; try contradiction.
  - intros Huid. cbn [mbind result_mbind result_bind]. rewrite Huid. eauto.
  - intros _. cbn [mbind result_mbind result_bind]. eauto.
Qed.

End SynthesisFailures.

(** ** Documents without sector entries, without [SectorKeys] *)



Section SectorKeysAbsent.
Context `{Platform}.


End SectorKeysAbsent.



(** ** Keys that cannot be decoded *)

Section KeyFormat.
Context `{Platform}.

Lemma decode_document_bad_key (top sector_keys entry : gmap string json)
    (sector : nat) (field s : string) (e : exn) :
  top !! "SectorKeys" = Some (JDict sector_keys) →
  sector < 16 →
  sector_keys !! Py.str_of_nat sector = Some (JDict entry) →
  field = "KeyA" ∨ field = "KeyB" →
  entry !! field = Some (JStr s) →
  Hex.fromhex s = Raise e →
  ∃ e', GenMissingKey.decode_document (JDict top) = Raise e'.
Proof.
  intros Hsk Hsector Hentry Hfield Hkey Hbad.
  assert (sector ∈ seq 0 16) as Hin by (apply elem_of_seq; lia).
  unfold GenMissingKey.decode_document.
  destruct (getitem (JDict top) "Card") as [card|]; [|cbn; eauto].
  cbn [mbind result_mbind result_bind].
  destruct (getitem card "UID") as [uid|]; [|cbn; eauto].
  cbn [mbind result_mbind result_bind getitem]. rewrite Hsk.
  cbn [mbind result_mbind result_bind].
  destruct Hfield as [-> | ->].
  - destruct (collect_keys_raises sector_keys entry "KeyA" s (seq 0 16)
                sector e [] Hin Hentry Hkey Hbad) as [e' ->].
    eauto.
  - destruct (GenMissingKey.collect_keys "KeyA" (JDict sector_keys)
                (seq 0 16) []) as [keysA|]; [|eauto].
    cbn [mbind result_mbind result_bind].
    destruct (collect_keys_raises sector_keys entry "KeyB" s (seq 0 16)
                sector e keysA Hin Hentry Hkey Hbad) as [e' ->].
    eauto.
Qed.

(** C3, as amended: when the KeyA or KeyB of an entry for a sector 0 to 15
    is a string on which [bytes.fromhex] raises, synthesis fails for the
    directory and writes nothing; [bytes.fromhex] raises on every string
    that holds a character which is neither a hexadecimal digit nor white
    space; and it decodes every string made of an even number of
    hexadecimal digits, one byte for two digits, so that the length of a
    key is not tested. *)
Theorem generate_key_file_bad_key :
  (∀ (directory : path) (json_filename : string) (st : store) (l : listing)
     (text : list byte) (top sector_keys entry : gmap string json)
     (sector : nat) (field s : string) (e : exn),
     st !! directory = Some l →
     file_get json_filename l = Some text →
     json_load text = Some (JDict top) →
     top !! "SectorKeys" = Some (JDict sector_keys) →
     sector < 16 →
     sector_keys !! Py.str_of_nat sector = Some (JDict entry) →
     field = "KeyA" ∨ field = "KeyB" →
     entry !! field = Some (JStr s) →
     Hex.fromhex s = Raise e →
     ∃ e', GenMissingKey.generate_key_file directory json_filename st
           = (st, (false, GenMissingKey.Msg e', None)))
  ∧ (∀ (s : string) (c : ascii),
       c ∈ list_ascii_of_string s →
       ¬ hex_digit c → Hex.is_space c = false →
       Hex.fromhex s = Raise ValueError)
  ∧ (∀ s : string,
       Py.all_chars (λ c, bool_decide (hex_digit c)) s = true →
       Nat.even (String.length s) = true →
       Hex.fromhex s = Ok (hex_bytes s)
       ∧ 2 * length (hex_bytes s) = String.length s).
Proof.
  split; [|split; [exact fromhex_rejects_char | exact fromhex_hex_digits]].
  intros directory json_filename st l text top sector_keys entry sector field
    s e Hdir Hfile Hload Hsk Hsector Hentry Hfield Hkey Hbad.
  destruct (decode_document_bad_key top sector_keys entry sector field s e
              Hsk Hsector Hentry Hfield Hkey Hbad) as [e' E].
  exists e'. apply generate_key_file_raise.
  rewrite (load_document_ok _ _ _ _ _ _ Hdir Hfile Hload). exact E.
Qed.

End KeyFormat.

(** A KeyB of sector 7 that is no hexadecimal string. *)
Lemma generate_key_file_bad_key_witness :
  ∃ e', GenMissingKey.generate_key_file (H := Examples.toy_platform)
          Examples.black_dir Examples.json_name (Examples.json_store [x05])
        = (Examples.json_store [x05], (false, GenMissingKey.Msg e', None)).
Proof.
  apply (proj1 (generate_key_file_bad_key (H := Examples.toy_platform))
    Examples.black_dir Examples.json_name (Examples.json_store [x05])
    [(Examples.json_name, [x05])] [x05]
    (<[ "Card" := Examples.card ]>
       {[ "SectorKeys" :=
            JDict {[ "7" := JDict {[ "KeyB" := JStr "GGHHIIJJKKLL" ]} ]} ]})
    {[ "7" := JDict {[ "KeyB" := JStr "GGHHIIJJKKLL" ]} ]}
    {[ "KeyB" := JStr "GGHHIIJJKKLL" ]}
    7 "KeyB" "GGHHIIJJKKLL" ValueError);
    first [ lia | right; reflexivity | vm_compute; reflexivity ].
Defined.

(** C3 as stated fails: a key of four hexadecimal digits is neither refused
    nor padded; synthesis succeeds and the blob is four bytes short. *)
Lemma short_key_is_accepted :
  let r := GenMissingKey.generate_key_file (H := Examples.toy_platform)
             Examples.black_dir Examples.json_name (Examples.json_store [x04]) in
  json_load (Platform := Examples.toy_platform) [x04]
    = Some Examples.doc_short_key
  ∧ String.length "AABB" ≠ 12
  ∧ Hex.fromhex "AABB" = Ok [xaa; xbb]
  ∧ r.2 = (true, GenMissingKey.Len 188,
           Some (path_join Examples.black_dir "hf-mf-04112233445566-key.bin"))
  ∧ r.1 !! Examples.black_dir
    = Some [ (Examples.json_name, [x04]);
             ("hf-mf-04112233445566-key.bin",
              [xaa; xbb] ++ replicate 186 xff) ].
Proof. vm_compute. repeat split; try reflexivity. discriminate. Qed.

(** ** Atomicity of [generate_key_file] *)

Section Atomicity.
Context `{Platform}.


End Atomicity.

(** ** The batch loop of [gen_missing_key.main] *)

Section Batch.
Context `{Platform}.

Lemma main_loop_app (a b : list (path * string))
    (s : store * GenMissingKey.tally) :
  GenMissingKey.main_loop (a ++ b) s
  = GenMissingKey.main_loop b (GenMissingKey.main_loop a s).
Proof. apply fold_left_app. Qed.

(** Every iteration counts its directory once, as a success or as a
    failure, and never forgets a failed directory. *)
Lemma main_step_tally (s : store * GenMissingKey.tally) (item : path * string) :
  let s' := GenMissingKey.main_step s item in
  GenMissingKey.success_count s'.2 + GenMissingKey.failed_count s'.2
  = S (GenMissingKey.success_count s.2 + GenMissingKey.failed_count s.2)
  ∧ ∀ d, d ∈ GenMissingKey.failed_dirs s.2 → d ∈ GenMissingKey.failed_dirs s'.2.
Proof.
  destruct s as [st t], item as [directory json_filename].
  unfold GenMissingKey.main_step.
  destruct (GenMissingKey.generate_key_file directory json_filename st)
    as [st' [[[] result] output_path]]; cbn.
  - split; [lia | auto].
  - split; [lia | intros d Hd; apply elem_of_app; auto].
Qed.

Lemma main_loop_tally (items : list (path * string))
    (s : store * GenMissingKey.tally) :
  let s' := GenMissingKey.main_loop items s in
  GenMissingKey.success_count s'.2 + GenMissingKey.failed_count s'.2
  = GenMissingKey.success_count s.2 + GenMissingKey.failed_count s.2
    + length items
  ∧ ∀ d, d ∈ GenMissingKey.failed_dirs s.2 → d ∈ GenMissingKey.failed_dirs s'.2.
Proof.
  revert s. induction items as [|item rest IH]; intros s.
  - cbn. split; [lia | auto].
  - destruct (main_step_tally s item) as [C1 M1].
    destruct (IH (GenMissingKey.main_step s item)) as [C2 M2].
    cbn [GenMissingKey.main_loop fold_left length] in *.
    unfold GenMissingKey.main_loop in C2, M2.
    split; [lia | auto].
Qed.

(** C4: a document without [Card.UID] makes [generate_key_file] fail
    without touching the tree; the loop of [main] counts the failure, puts
    the directory on the list of failed directories and goes on with the
    directories that follow, so that every directory of the batch is counted
    once. *)
Theorem missing_uid_is_recorded (before after : list (path * string))
    (directory : path) (json_filename : string)
    (s0 : store * GenMissingKey.tally) (st : store) (t : GenMissingKey.tally)
    (l : listing) (text : list byte) (data : json) :
  GenMissingKey.main_loop before s0 = (st, t) →
  st !! directory = Some l →
  file_get json_filename l = Some text →
  json_load text = Some data →
  missing_card_uid data →
  let batch := before ++ (directory, json_filename) :: after in
  let t' := GenMissingKey.Tally (GenMissingKey.success_count t)
              (GenMissingKey.failed_count t + 1)
              (GenMissingKey.failed_dirs t ++ [str_of_path directory]) in
  (∃ e, GenMissingKey.generate_key_file directory json_filename st
        = (st, (false, GenMissingKey.Msg e, None)))
  ∧ GenMissingKey.main_loop batch s0 = GenMissingKey.main_loop after (st, t')
  ∧ str_of_path directory
    ∈ GenMissingKey.failed_dirs (GenMissingKey.main_loop batch s0).2
  ∧ GenMissingKey.success_count (GenMissingKey.main_loop batch s0).2
    + GenMissingKey.failed_count (GenMissingKey.main_loop batch s0).2
    = GenMissingKey.success_count s0.2 + GenMissingKey.failed_count s0.2
      + length batch.
Proof.
  intros Hbefore Hdir Hfile Hload Hmissing batch t'.
  destruct (decode_document_missing_uid data Hmissing) as [e He].
  assert (GenMissingKey.generate_key_file directory json_filename st
          = (st, (false, GenMissingKey.Msg e, None))) as Hgen.
  { apply generate_key_file_raise.
    rewrite (load_document_ok _ _ _ _ _ _ Hdir Hfile Hload). exact He. }
  assert (GenMissingKey.main_loop batch s0
          = GenMissingKey.main_loop after (st, t')) as Hloop.
  { unfold batch. rewrite main_loop_app, Hbefore.
    cbn [GenMissingKey.main_loop fold_left GenMissingKey.main_step].
    rewrite Hgen. reflexivity. }
  split; [eauto|]. split; [exact Hloop|]. split.
  - rewrite Hloop. apply main_loop_tally. cbn.
    apply elem_of_app. right. apply list_elem_of_here.
  - apply main_loop_tally.
Qed.

End Batch.

(** A batch of three directories, the second without a UID. *)
Lemma missing_uid_is_recorded_witness :
  let batch := [ (Examples.black_dir, Examples.json_name);
                 (Examples.white_dir, "hf-mf-ABCDEF03-dump.json");
                 (Examples.red_dir, "hf-mf-ABCDEF04-dump.json") ] in
  let final := (GenMissingKey.main_loop (H := Examples.toy_platform) batch
                  (Examples.batch_store, GenMissingKey.Tally 0 0 [])).2 in
  str_of_path Examples.white_dir ∈ GenMissingKey.failed_dirs final
  ∧ GenMissingKey.success_count final + GenMissingKey.failed_count final = 3.
Proof.
  pose (s0 := (Examples.batch_store, GenMissingKey.Tally 0 0 [])).
  pose (s1 := GenMissingKey.main_loop (H := Examples.toy_platform)
                [(Examples.black_dir, Examples.json_name)] s0).
  pose proof (missing_uid_is_recorded (H := Examples.toy_platform)
    [(Examples.black_dir, Examples.json_name)]
    [(Examples.red_dir, "hf-mf-ABCDEF04-dump.json")]
    Examples.white_dir "hf-mf-ABCDEF03-dump.json" s0 s1.1 s1.2
    [("hf-mf-ABCDEF03-dump.json", [x06])] [x06] Examples.doc_no_uid
    (surjective_pairing s1)) as W.
  simple refine (let W' := W _ _ _ _ in _);
    [vm_compute; reflexivity .. |].
  destruct W' as (_ & _ & Hin & Hcount).
  split; [exact Hin | exact Hcount].
Defined.

(** ** The walk *)

Lemma tree_Forall_ind (P : tree → Prop) :
  (∀ subdirs, Forall (λ entry, P entry.2) subdirs → P (Node subdirs)) →
  ∀ t, P t.
Proof.
  intros Hnode. fix IH 1. intros [subdirs]. apply Hnode.
  induction subdirs as [|[name sub] rest IHrest]; constructor.
  - apply IH.
  - exact IHrest.
Qed.

(** A loop body that appends [out root files] and prunes like the scripts
    makes [os.walk] collect [out] over the visited directories. *)
Lemma os_walk_visited {A} (out : path → list string → list A)
    (body : list A → path → list string → list string → list A * list string)
    (st : store) :
  (∀ acc root dirs files,
     body acc root dirs files = (acc ++ out root files, pruned root dirs)) →
  ∀ t root acc,
    os_walk body st root t acc
    = acc ++ flat_map (λ r, out r (files_of st r)) (visited root t).
Proof.
  intros Hbody t. induction t as [subdirs IH] using tree_Forall_ind.
  intros root acc. cbn [os_walk visited flat_map]. rewrite Hbody.
  rewrite app_assoc.
  generalize (acc ++ out root (files_of st root)) as acc1.
  generalize (pruned root subdirs.*1) as dirs.
  intros dirs. induction IH as [|[name sub] rest Hsub _ IHrest]; intros acc1.
  - cbn. rewrite app_nil_r. reflexivity.
  - cbn [enter_dirs flat_map fst snd]. rewrite IHrest.
    destruct (Py.str_in name dirs).
    + cbn [snd] in Hsub. rewrite Hsub, flat_map_app, app_assoc. reflexivity.
    + reflexivity.
Qed.

Lemma find_missing_body_select (acc : list (path * string)) (root : path)
    (dirs files : list string) :
  GenMissingKey.find_missing_body acc root dirs files
  = (acc ++ select_missing root files, pruned root dirs).
Proof.
  unfold GenMissingKey.find_missing_body, select_missing, pruned.
  case_bool_decide; [rewrite app_nil_r; reflexivity|].
  destruct (Py.str_in "scripts" root); [rewrite app_nil_r; reflexivity|].
  destruct (is_uid_dir (path_name root)); [|rewrite app_nil_r; reflexivity].
  destruct (List.filter _ files) as [|json_file ?];
    [rewrite app_nil_r; reflexivity|].
  destruct (List.filter _ files); [reflexivity|].
  rewrite app_nil_r; reflexivity.
Qed.

Lemma find_rfid_body_select (acc : list path) (root : path)
    (dirs files : list string) :
  GenExcel.find_rfid_body acc root dirs files
  = (acc ++ select_rfid root files, pruned root dirs).
Proof.
  unfold GenExcel.find_rfid_body, select_rfid, pruned.
  case_bool_decide; [rewrite app_nil_r; reflexivity|].
  destruct (Py.str_in "scripts" root); [rewrite app_nil_r; reflexivity|].
  destruct (is_uid_dir_excel (path_name root));
    [reflexivity | rewrite app_nil_r; reflexivity].
Qed.

Lemma find_missing_key_files_visited (t : tree) (st : store) :
  GenMissingKey.find_missing_key_files t st
  = flat_map (λ r, select_missing r (files_of st r)) (visited base_path t).
Proof.
  unfold GenMissingKey.find_missing_key_files.
  rewrite (os_walk_visited select_missing) by apply find_missing_body_select.
  reflexivity.
Qed.

Lemma find_rfid_files_visited (t : tree) (st : store) :
  GenExcel.find_rfid_files t st
  = flat_map (λ r, select_rfid r (files_of st r)) (visited base_path t).
Proof.
  unfold GenExcel.find_rfid_files.
  rewrite (os_walk_visited select_rfid) by apply find_rfid_body_select.
  reflexivity.
Qed.

Lemma str_in_elem_of (x : string) (l : list string) :
  Py.str_in x l = true ↔ x ∈ l.
Proof.
  unfold Py.str_in. rewrite existsb_exists. split.
  - intros (y & Hin & Heq). apply String.eqb_eq in Heq as ->.
    apply list_elem_of_In, Hin.
  - intros Hin. exists x. split; [apply list_elem_of_In, Hin|].
    apply String.eqb_refl.
Qed.

(** A directory is selected for synthesis exactly when the walk visits it
    and its listing passes the tests of the loop body. *)
Lemma elem_of_find_missing_key_files (t : tree) (st : store)
    (p : path) (json_file : string) :
  (p, json_file) ∈ GenMissingKey.find_missing_key_files t st
  ↔ p ∈ visited base_path t
    ∧ select_missing p (files_of st p) = [(p, json_file)].
Proof.
  rewrite find_missing_key_files_visited, list_elem_of_In, in_flat_map.
  split.
  - intros (r & Hr & Hin). apply list_elem_of_In in Hr, Hin.
    assert (r = p ∧ select_missing r (files_of st r) = [(r, json_file)])
      as [-> Hsel]; [|auto].
    unfold select_missing in Hin |- *.
    destruct (bool_decide (r = base_path)); [apply elem_of_nil in Hin as []|].
    destruct (Py.str_in "scripts" r); [apply elem_of_nil in Hin as []|].
    destruct (is_uid_dir (path_name r)); [|apply elem_of_nil in Hin as []].
    destruct (List.filter (λ f, Py.endswith f "dump.json") (files_of st r))
      as [|j ?]; [apply elem_of_nil in Hin as []|].
    destruct (List.filter (λ f, Py.endswith f "key.bin") (files_of st r));
      [|apply elem_of_nil in Hin as []].
    apply list_elem_of_singleton in Hin. injection Hin as -> ->. auto.
  - intros [Hvis Hsel]. exists p. split; [apply list_elem_of_In, Hvis|].
    rewrite Hsel. left. reflexivity.
Qed.

(** C7: no directory with [scripts] among the parts of its path is ever
    selected, by either walker, whatever its name: the pairs returned by
    [find_missing_key_files] and the files returned by [find_rfid_files]
    all lie in directories whose path has no [scripts] part. *)
Theorem scripts_never_classified (t : tree) (st : store) :
  (∀ p json_file,
     (p, json_file) ∈ GenMissingKey.find_missing_key_files t st →
     "scripts" ∉ p)
  ∧ (∀ file_path,
       file_path ∈ GenExcel.find_rfid_files t st →
       ∃ root file, file_path = path_join root file ∧ "scripts" ∉ root).
Proof.
  split.
  - intros p json_file Hin.
    apply elem_of_find_missing_key_files in Hin as [_ Hsel].
    unfold select_missing in Hsel.
    case_bool_decide; [discriminate Hsel|].
    destruct (Py.str_in "scripts" p) eqn:Hs; [discriminate Hsel|].
    intros Hc. apply str_in_elem_of in Hc. congruence.
  - intros file_path Hin.
    rewrite find_rfid_files_visited, list_elem_of_In, in_flat_map in Hin.
    destruct Hin as (root & _ & Hin). apply list_elem_of_In in Hin.
    unfold select_rfid in Hin.
    case_bool_decide; [apply elem_of_nil in Hin as []|].
    destruct (Py.str_in "scripts" root) eqn:Hs;
      [apply elem_of_nil in Hin as []|].
    destruct (is_uid_dir_excel (path_name root));
      [|apply elem_of_nil in Hin as []].
    apply list_elem_of_In, in_map_iff in Hin as (file & <- & _).
    exists root, file. split; [reflexivity|].
    intros Hc. apply str_in_elem_of in Hc. congruence.
Qed.

(** A project with a tag directory under [scripts]. *)
Lemma scripts_never_classified_witness :
  GenMissingKey.find_missing_key_files Examples.project
    (Examples.project_store [x01])
  = [(Examples.black_dir, Examples.json_name)]
  ∧ ("scripts" ∉ Examples.black_dir)
  ∧ (∃ root file,
       path_join Examples.black_dir "hf-mf-ABCDEF01-dump.bin"
       = path_join root file ∧ "scripts" ∉ root).
Proof.
  split; [vm_compute; reflexivity|].
  destruct (scripts_never_classified Examples.project
              (Examples.project_store [x01])) as [Wkey Wrfid].
  split.
  - apply (Wkey Examples.black_dir Examples.json_name).
    replace (GenMissingKey.find_missing_key_files Examples.project
               (Examples.project_store [x01]))
      with [(Examples.black_dir, Examples.json_name)]
      by (vm_compute; reflexivity).
    apply list_elem_of_here.
  - apply Wrfid.
    replace (GenExcel.find_rfid_files Examples.project
               (Examples.project_store [x01]))
      with [path_join Examples.black_dir "hf-mf-ABCDEF01-dump.bin"]
      by (vm_compute; reflexivity).
    apply list_elem_of_here.
Defined.

(** ** Key files only ever accumulate *)

Lemma file_get_put_ne (name n : string) (data : list byte) (l : listing) :
  name ≠ n → file_get name (file_put n data l) = file_get name l.
Proof.
  intros Hne. induction l as [|[m d] l IH]; cbn.
  - rewrite (proj2 (String.eqb_neq name n)) by exact Hne. reflexivity.
  - destruct (String.eqb_spec n m) as [->|Hnm]; cbn.
    + rewrite (proj2 (String.eqb_neq name m)) by exact Hne. reflexivity.
    + rewrite IH. reflexivity.
Qed.

Lemma file_put_names (n : string) (data : list byte) (l : listing) :
  (file_put n data l).*1 = l.*1 ∨ (file_put n data l).*1 = l.*1 ++ [n].
Proof.
  induction l as [|[m d] l IH]; cbn.
  - right. reflexivity.
  - destruct (String.eqb_spec n m) as [->|Hnm]; cbn.
    + left. reflexivity.
    + destruct IH as [-> | ->]; [left | right]; reflexivity.
Qed.

Lemma file_put_has_name (n : string) (data : list byte) (l : listing) :
  n ∈ (file_put n data l).*1.
Proof.
  induction l as [|[m d] l IH]; cbn.
  - apply list_elem_of_here.
  - destruct (String.eqb_spec n m) as [->|Hnm]; cbn.
    + apply list_elem_of_here.
    + apply list_elem_of_further, IH.
Qed.

Lemma filter_nonempty (P : string → bool) (x : string) (l : list string) :
  x ∈ l → P x = true → List.filter P l ≠ [].
Proof.
  intros Hin HP Hnil.
  assert (In x (List.filter P l)) as Hx
    by (apply filter_In; split; [apply list_elem_of_In, Hin | exact HP]).
  rewrite Hnil in Hx. destruct Hx.
Qed.

Lemma files_of_insert (st : store) (d d' : path) (l : listing) :
  files_of (<[d := l]> st) d' = if decide (d = d') then l.*1 else files_of st d'.
Proof.
  unfold files_of. rewrite lookup_insert. destruct (decide (d = d')); reflexivity.
Qed.

Lemma grows_refl (st : store) : grows st st.
Proof. intros d. auto. Qed.

Lemma grows_trans (st1 st2 st3 : store) :
  grows st1 st2 → grows st2 st3 → grows st1 st3.
Proof.
  intros H12 H23 d. destruct (H12 d) as (R12 & J12 & K12).
  destruct (H23 d) as (R23 & J23 & K23). split; [|split].
  - intros name Hname. rewrite R23, R12 by exact Hname. reflexivity.
  - rewrite J23, J12. reflexivity.
  - auto.
Qed.

(** Writing a key file makes the store grow. *)
Lemma grows_put (st : store) (d : path) (l : listing) (n : string)
    (data : list byte) :
  st !! d = Some l →
  Py.endswith n "key.bin" = true →
  grows st (<[d := file_put n data l]> st).
Proof.
  intros Hd Hn d'. unfold read, json_files, key_files.
  rewrite files_of_insert, lookup_insert.
  destruct (decide (d = d')) as [<-|Hne]; [|auto].
  unfold files_of. rewrite Hd. cbn [mbind option_bind]. split; [|split].
  - intros name Hname. apply file_get_put_ne. congruence.
  - destruct (file_put_names n data l) as [-> | ->]; [reflexivity|].
    rewrite List.filter_app. cbn [List.filter].
    destruct (Py.endswith n "dump.json") eqn:Hj.
    + apply endswith_json_not_key in Hj. congruence.
    + apply app_nil_r.
  - intros _. apply (filter_nonempty _ n);
      [apply file_put_has_name | exact Hn].
Qed.

(** ** Two passes of the synthesis *)

Section TwoPasses.
Context `{Platform}.

Lemma key_file_name_endswith (uid : json) :
  Py.endswith (GenMissingKey.key_file_name uid) "key.bin" = true.
Proof.
  apply endswith_iff. unfold GenMissingKey.key_file_name.
  exists ("hf-mf-" +:+ match uid with JStr s => s | v => py_format v end +:+ "-").
  rewrite !string_app_assoc. reflexivity.
Qed.

(** The tree after [generate_key_file]: unchanged on failure, with one key
    file put into the directory on success. *)
Lemma generate_key_file_store (directory : path) (json_filename : string)
    (st : store) :
  if GenMissingKey.succeeded directory json_filename st then
    ∃ l uid key_bytes,
      st !! directory = Some l
      ∧ (GenMissingKey.generate_key_file directory json_filename st).1
        = <[directory :=
              file_put (GenMissingKey.key_file_name uid) key_bytes l]> st
  else (GenMissingKey.generate_key_file directory json_filename st).1 = st.
Proof.
  unfold GenMissingKey.succeeded. rewrite generate_key_file_stages.
  destruct (GenMissingKey.load_document directory json_filename st
            ≫= GenMissingKey.decode_document) as [[uid key_bytes]|e];
    [|reflexivity].
  unfold GenMissingKey.store_key_file.
  destruct (st !! directory) as [l|]; [|reflexivity].
  destruct (os_accepts (GenMissingKey.key_file_name uid)); [|reflexivity].
  cbn. eauto.
Qed.

Lemma generate_key_file_grows (directory : path) (json_filename : string)
    (st : store) :
  grows st (GenMissingKey.generate_key_file directory json_filename st).1.
Proof.
  pose proof (generate_key_file_store directory json_filename st) as Hst.
  destruct (GenMissingKey.succeeded directory json_filename st).
  - destruct Hst as (l & uid & key_bytes & Hd & ->).
    apply grows_put; [exact Hd | apply key_file_name_endswith].
  - rewrite Hst. apply grows_refl.
Qed.




Lemma main_step_store (s : store * GenMissingKey.tally) (item : path * string) :
  (GenMissingKey.main_step s item).1
  = (GenMissingKey.generate_key_file item.1 item.2 s.1).1.
Proof.
  destruct s as [st t], item as [directory json_filename].
  unfold GenMissingKey.main_step. cbn [fst snd].
  destruct (GenMissingKey.generate_key_file directory json_filename st)
    as [st' [[[] result] output_path]]; reflexivity.
Qed.

Lemma main_loop_grows (items : list (path * string))
    (s : store * GenMissingKey.tally) :
  grows s.1 (GenMissingKey.main_loop items s).1.
Proof.
  revert s. induction items as [|item rest IH]; intros s.
  - apply grows_refl.
  - cbn [GenMissingKey.main_loop fold_left].
    eapply grows_trans; [|apply IH].
    rewrite main_step_store. apply generate_key_file_grows.
Qed.





End TwoPasses.


(** * Further properties of the two scripts *)

(** ** What a run of [gen_missing_key.main] leaves behind *)

Section MainRun.
Context `{Platform}.

Lemma main_step_failed_dirs (s : store * GenMissingKey.tally)
    (item : path * string) :
  length (GenMissingKey.failed_dirs s.2) = GenMissingKey.failed_count s.2 →
  length (GenMissingKey.failed_dirs (GenMissingKey.main_step s item).2)
  = GenMissingKey.failed_count (GenMissingKey.main_step s item).2.
Proof.
  destruct s as [st t], item as [directory json_filename].
  unfold GenMissingKey.main_step. cbn [snd]. intros Hlen.
  destruct (GenMissingKey.generate_key_file directory json_filename st)
    as [st' [[[] result] output_path]]; cbn.
  - exact Hlen.
  - rewrite length_app. cbn. lia.
Qed.

Lemma main_loop_failed_dirs (items : list (path * string))
    (s : store * GenMissingKey.tally) :
  length (GenMissingKey.failed_dirs s.2) = GenMissingKey.failed_count s.2 →
  length (GenMissingKey.failed_dirs (GenMissingKey.main_loop items s).2)
  = GenMissingKey.failed_count (GenMissingKey.main_loop items s).2.
Proof.
  revert s. induction items as [|item rest IH]; intros s Hlen; [exact Hlen|].
  cbn [GenMissingKey.main_loop fold_left]. apply IH.
  apply main_step_failed_dirs, Hlen.
Qed.

(** X1: at the end of [main] the two counters add up to the number of
    directories that were found, and the list of failed directories has
    one entry for every counted failure. *)
Theorem main_counts_every_directory (t : tree) (st : store) :
  let final := (GenMissingKey.main t st).2 in
  GenMissingKey.success_count final + GenMissingKey.failed_count final
  = length (GenMissingKey.find_missing_key_files t st)
  ∧ length (GenMissingKey.failed_dirs final)
    = GenMissingKey.failed_count final.
Proof.
  cbn zeta. unfold GenMissingKey.main. split.
  - rewrite (proj1 (main_loop_tally _ _)). reflexivity.
  - apply main_loop_failed_dirs. reflexivity.
Qed.

(** X2: a run of [main] neither changes nor removes a file whose name does
    not end with [key.bin]: every document and every dump reads after the
    run as it did before, and the documents of a directory are listed in
    the same order. *)
Theorem main_keeps_other_files (t : tree) (st : store) (d : path)
    (name : string) :
  Py.endswith name "key.bin" = false →
  read (GenMissingKey.main t st).1 d name = read st d name
  ∧ json_files (GenMissingKey.main t st).1 d = json_files st d.
Proof.
  intros Hname.
  destruct (main_loop_grows (GenMissingKey.find_missing_key_files t st)
              (st, GenMissingKey.Tally 0 0 []) d) as (Hread & Hjson & _).
  split; [apply Hread, Hname | exact Hjson].
Qed.




End MainRun.

Lemma main_keeps_other_files_witness :
  read (GenMissingKey.main (H := Examples.toy_platform) Examples.project
          (Examples.project_store [x01])).1
       Examples.black_dir Examples.json_name
  = Some [x01].
Proof.
  rewrite (proj1 (main_keeps_other_files (H := Examples.toy_platform)
                    Examples.project (Examples.project_store [x01])
                    Examples.black_dir Examples.json_name eq_refl)).
  vm_compute. reflexivity.
Defined.


(** ** The file written by [generate_key_file] *)

Section WrittenFile.
Context `{Platform}.

Lemma file_get_put_eq (name : string) (data : list byte) (l : listing) :
  file_get name (file_put name data l) = Some data.
Proof.
  induction l as [|[m d] l IH]; cbn.
  - rewrite String.eqb_refl. reflexivity.
  - destruct (String.eqb_spec name m) as [->|Hnm]; cbn.
    + rewrite String.eqb_refl. reflexivity.
    + rewrite (proj2 (String.eqb_neq name m)) by exact Hnm. exact IH.
Qed.

(** X4: when [generate_key_file] returns success, the path it returns is
    the given directory followed by [hf-mf-<UID>-key.bin], where [<UID>] is
    the [Card.UID] of the document, taken as it is; and the file found at
    that path afterwards holds exactly as many bytes as the returned
    count. *)
Theorem generate_key_file_reads_back (directory : path)
    (json_filename : string) (st st' : store) (result : GenMissingKey.outcome)
    (output_path : option path) :
  GenMissingKey.generate_key_file directory json_filename st
    = (st', (true, result, output_path)) →
  ∃ l text data card uid key_bytes,
    st !! directory = Some l
    ∧ file_get json_filename l = Some text
    ∧ json_load text = Some data
    ∧ getitem data "Card" = Ok card
    ∧ getitem card "UID" = Ok uid
    ∧ output_path
      = Some (path_join directory (GenMissingKey.key_file_name uid))
    ∧ (∀ s, uid = JStr s →
            GenMissingKey.key_file_name uid = "hf-mf-" +:+ s +:+ "-key.bin")
    ∧ read_file (path_join directory (GenMissingKey.key_file_name uid)) st'
      = (st', Ok key_bytes)
    ∧ result = GenMissingKey.Len (length key_bytes).
Proof.
  rewrite generate_key_file_stages.
  unfold GenMissingKey.load_document, GenMissingKey.decode_document,
    GenMissingKey.store_key_file.
  destruct (st !! directory) as [l|] eqn:Hdir; [|discriminate].
  destruct (file_get json_filename l) as [text|] eqn:Hfile; [|discriminate].
  destruct (json_load text) as [data|] eqn:Hload; [|discriminate].
  cbn [mbind result_mbind result_bind].
  destruct (getitem data "Card") as [card|] eqn:Hcard; [|discriminate].
  cbn [mbind result_mbind result_bind].
  destruct (getitem card "UID") as [uid|] eqn:Huid; [|discriminate].
  cbn [mbind result_mbind result_bind].
  destruct (getitem data "SectorKeys") as [sector_keys|]; [|discriminate].
  cbn [mbind result_mbind result_bind].
  destruct (GenMissingKey.collect_keys "KeyA" sector_keys (seq 0 16) [])
    as [keysA|]; [|discriminate].
  cbn [mbind result_mbind result_bind].
  destruct (GenMissingKey.collect_keys "KeyB" sector_keys (seq 0 16) keysA)
    as [key_bytes|]; [|discriminate].
  cbn [mbind result_mbind result_bind mret result_mret].
  destruct (os_accepts (GenMissingKey.key_file_name uid)); [|discriminate].
  intros [= <- <- <-].
  exists l, text, data, card, uid, key_bytes.
  repeat split; try assumption; try reflexivity.
  - intros s ->. reflexivity.
  - unfold read_file, path_join. rewrite last_snoc, removelast_last.
    rewrite lookup_insert_eq, file_get_put_eq. reflexivity.
Qed.

End WrittenFile.

Lemma generate_key_file_reads_back_witness :
  ∃ key_bytes,
    read_file (path_join Examples.black_dir "hf-mf-04112233445566-key.bin")
      (GenMissingKey.generate_key_file (H := Examples.toy_platform)
         Examples.black_dir Examples.json_name (Examples.json_store [x01])).1
    = ((GenMissingKey.generate_key_file (H := Examples.toy_platform)
          Examples.black_dir Examples.json_name (Examples.json_store [x01])).1,
       Ok key_bytes)
    ∧ length key_bytes = 192.
Proof.
  destruct (generate_key_file_reads_back (H := Examples.toy_platform)
              Examples.black_dir Examples.json_name (Examples.json_store [x01])
              (GenMissingKey.generate_key_file (H := Examples.toy_platform)
                 Examples.black_dir Examples.json_name
                 (Examples.json_store [x01])).1
              (GenMissingKey.Len 192)
              (Some (path_join Examples.black_dir
                       "hf-mf-04112233445566-key.bin")))
    as (l & text & data & card & uid & key_bytes & Hl & Ht & Hd & Hc & Hu
        & Hp & _ & Hread & Hlen).
  - apply injective_projections; [reflexivity | vm_compute; reflexivity].
  - exists key_bytes. injection Hp as Hp. injection Hlen as Hlen.
    rewrite Hp. split; [exact Hread | symmetry; exact Hlen].
Defined.

(** ** Entries of [SectorKeys] that the loops never read *)

Lemma collect_keys_other_entry (field : string) (sk : gmap string json)
    (key : string) (v : json) (sectors : list nat) (key_bytes : list byte) :
  (∀ sector, sector ∈ sectors → Py.str_of_nat sector ≠ key) →
  GenMissingKey.collect_keys field (JDict (<[key := v]> sk)) sectors key_bytes
  = GenMissingKey.collect_keys field (JDict sk) sectors key_bytes.
Proof.
  revert key_bytes. induction sectors as [|sector rest IH];
    intros key_bytes Hother; [reflexivity|].
  cbn [GenMissingKey.collect_keys get].
  rewrite lookup_insert_ne
    by (intros E; apply (Hother sector (list_elem_of_here _ _)); congruence).
  unfold mbind, result_mbind, result_bind.
  destruct (sk !! Py.str_of_nat sector) as [entry|].
  - destruct (get entry field (JStr "FFFFFFFFFFFF")); [|reflexivity].
    destruct (bytes_fromhex _); [|reflexivity].
    apply IH. intros s Hs. apply Hother, list_elem_of_further, Hs.
  - destruct (get (JDict ∅) field (JStr "FFFFFFFFFFFF")); [|reflexivity].
    destruct (bytes_fromhex _); [|reflexivity].
    apply IH. intros s Hs. apply Hother, list_elem_of_further, Hs.
Qed.

Section OtherEntries.
Context `{Platform}.

(** X5: an entry of [SectorKeys] under a key that is not the decimal
    writing of a sector 0 to 15 is never read: two documents that differ
    only by such an entry, whatever its value, give the same returned
    triple. *)
Theorem generate_key_file_ignores_other_entries (directory : path)
    (json_filename : string) (st st2 : store) (l l2 : listing)
    (text text2 : list byte) (top sk : gmap string json)
    (key : string) (v : json) :
  (∀ sector, sector < 16 → Py.str_of_nat sector ≠ key) →
  top !! "SectorKeys" = Some (JDict sk) →
  st !! directory = Some l →
  file_get json_filename l = Some text →
  json_load text = Some (JDict top) →
  st2 !! directory = Some l2 →
  file_get json_filename l2 = Some text2 →
  json_load text2
    = Some (JDict (<["SectorKeys" := JDict (<[key := v]> sk)]> top)) →
  (GenMissingKey.generate_key_file directory json_filename st2).2
  = (GenMissingKey.generate_key_file directory json_filename st).2.
Proof.
  intros Hother Hsk Hdir Hfile Hload Hdir2 Hfile2 Hload2.
  assert (∀ sector, sector ∈ seq 0 16 → Py.str_of_nat sector ≠ key) as Hseq
    by (intros sector Hin; apply elem_of_seq in Hin; apply Hother; lia).
  rewrite !generate_key_file_stages.
  rewrite (load_document_ok _ _ _ _ _ _ Hdir Hfile Hload).
  rewrite (load_document_ok _ _ _ _ _ _ Hdir2 Hfile2 Hload2).
  cbn [mbind result_mbind result_bind].
  assert (GenMissingKey.decode_document
            (JDict (<["SectorKeys" := JDict (<[key := v]> sk)]> top))
          = GenMissingKey.decode_document (JDict top)) as ->.
  { unfold GenMissingKey.decode_document, getitem.
    rewrite (lookup_insert_ne _ "SectorKeys" "Card")
      by (intros E; discriminate E).
    destruct (top !! "Card") as [card|]; [|reflexivity].
    cbn [mbind result_mbind result_bind].
    destruct (match card with JDict d => _ | _ => _ end) as [uid|];
      [|reflexivity].
    cbn [mbind result_mbind result_bind].
    rewrite lookup_insert_eq, Hsk. cbn [mbind result_mbind result_bind].
    rewrite collect_keys_other_entry by exact Hseq.
    destruct (GenMissingKey.collect_keys "KeyA" (JDict sk) (seq 0 16) [])
      as [keysA|]; [|reflexivity].
    cbn [mbind result_mbind result_bind].
    rewrite collect_keys_other_entry by exact Hseq. reflexivity. }
  destruct (GenMissingKey.decode_document (JDict top)) as [[uid key_bytes]|e];
    [|reflexivity].
  unfold GenMissingKey.store_key_file. rewrite Hdir, Hdir2.
  destruct (os_accepts (GenMissingKey.key_file_name uid)); reflexivity.
Qed.

End OtherEntries.

Lemma generate_key_file_ignores_other_entries_witness :
  (GenMissingKey.generate_key_file (H := MoreExamples.platform)
     Examples.black_dir Examples.json_name (Examples.json_store [x07])).2
  = (GenMissingKey.generate_key_file (H := MoreExamples.platform)
       Examples.black_dir Examples.json_name (Examples.json_store [x01])).2.
Proof.
  apply (generate_key_file_ignores_other_entries (H := MoreExamples.platform)
    Examples.black_dir Examples.json_name
    (Examples.json_store [x01]) (Examples.json_store [x07])
    [(Examples.json_name, [x01])] [(Examples.json_name, [x07])] [x01] [x07]
    MoreExamples.top3
    {[ "3" := JDict {[ "KeyA" := JStr "AABBCCDDEEFF" ]} ]}
    "16" (JStr "no entry"));
    try (vm_compute; reflexivity).
  intros sector Hsector E.
  do 16 (destruct sector as [|sector]; [discriminate E|]). lia.
Defined.

(** ** What the two searches return *)






(** ** The rows of the report *)

Section Rows.
Context `{GenExcel.Parser}.

Lemma main_step_row (st : store) (rows : list GenExcel.row)
    (stats : gmap string nat) (file_path : path)
    (rows' : list GenExcel.row) (stats' : gmap string nat) :
  GenExcel.main_step st (rows, stats) file_path = Ok (rows', stats') →
  ∃ r, rows' = rows ++ [r]
       ∧ GenExcel.col_material_type r
         = GenExcel.PStr (path_material_type file_path)
       ∧ GenExcel.col_color r
         = GenExcel.PStr (path_color_display file_path).
Proof.
  unfold GenExcel.main_step, path_material_type, path_color_display.
  destruct (GenExcel.extract_path_info file_path)
    as [[[[material_category material_type] color] uid] color_display].
  cbn [fst snd].
  destruct (GenExcel.truthy (GenExcel.parse_rfid_file file_path st)).
  - unfold mbind, result_mbind, result_bind.
    destruct (GenExcel.hotend _ "min_hotend"); [|discriminate].
    destruct (GenExcel.hotend _ "max_hotend"); [|discriminate].
    destruct (GenExcel.getattr _ "data") as [tag_data|]; [|discriminate].
    destruct (GenExcel.dict_get tag_data "uid" _); [|discriminate].
    destruct (GenExcel.dict_get tag_data "filament_color" _); [|discriminate].
    intros [= <- <-]. eexists. split; [reflexivity|]. split; reflexivity.
  - intros [= <- <-]. eexists. split; [reflexivity|]. split; reflexivity.
Qed.

(** X8: when the loop of [gen_excel.main] runs to its end, it has added
    exactly one row for every file, in the order of the files, and the
    material type and the colour of the row of a file are the ones read
    from the path of that file, whether the file could be parsed or not. *)
Theorem main_loop_one_row_per_file (st : store) (rfid_files : list path)
    (rows rows' : list GenExcel.row) (stats stats' : gmap string nat) :
  GenExcel.main_loop st rfid_files (rows, stats) = Ok (rows', stats') →
  ∃ new,
    rows' = rows ++ new
    ∧ length new = length rfid_files
    ∧ ∀ i file_path r,
        rfid_files !! i = Some file_path → new !! i = Some r →
        GenExcel.col_material_type r
          = GenExcel.PStr (path_material_type file_path)
        ∧ GenExcel.col_color r
          = GenExcel.PStr (path_color_display file_path).
Proof.
  revert rows stats.
  induction rfid_files as [|file_path rest IH]; intros rows stats.
  - intros [= <- <-]. exists []. rewrite app_nil_r.
    split; [reflexivity|]. split; [reflexivity|]. intros i ? ? Hi.
    discriminate Hi.
  - cbn [GenExcel.main_loop]. unfold mbind, result_mbind, result_bind.
    destruct (GenExcel.main_step st (rows, stats) file_path)
      as [[rows1 stats1]|] eqn:Hstep; [|discriminate].
    intros Hrest.
    apply main_step_row in Hstep as (r0 & -> & Htype & Hcolor).
    apply IH in Hrest as (new & -> & Hlen & Hnew).
    exists (r0 :: new). rewrite <- app_assoc.
    split; [reflexivity|]. split; [cbn; lia|].
    intros [|i] f r Hi Hr.
    + injection Hi as <-. injection Hr as <-. auto.
    + apply (Hnew i f r Hi Hr).
Qed.

End Rows.

Lemma main_loop_one_row_per_file_witness :
  ∃ new,
    length new = 1
    ∧ ∀ r, new !! 0 = Some r →
           GenExcel.col_material_type r = GenExcel.PStr "PLA Basic".
Proof.
  destruct (main_loop_one_row_per_file (H := Examples.raising_parser)
              Examples.dump_store [Examples.black_dump] []
              [GenExcel.Row (GenExcel.PStr "PLA Basic")
                 (GenExcel.PStr "黑色/Black")
                 (GenExcel.PStr GenExcel.parse_failed)
                 (GenExcel.PStr GenExcel.parse_failed)
                 (GenExcel.PStr GenExcel.parse_failed)] ∅ ∅)
    as (new & _ & Hlen & Hnew).
  - vm_compute. reflexivity.
  - exists new. split; [exact Hlen|].
    intros r Hr. apply (Hnew 0 Examples.black_dump r eq_refl Hr).
Defined.

(** ** The colour as displayed *)

Lemma assoc_In (key : string) (l : list (string * string)) (v : string) :
  GenExcel.assoc key l = Some v → In (key, v) l.
Proof.
  induction l as [|[k w] l IH]; [discriminate|]. cbn.
  destruct (String.eqb_spec key k) as [->|Hne].
  - intros [= ->]. left. reflexivity.
  - intros Hl. right. apply IH, Hl.
Qed.

Lemma color_map_never_identity (english chinese : string) :
  GenExcel.assoc english GenExcel.color_map = Some chinese →
  chinese ≠ english.
Proof.
  intros Hassoc. apply assoc_In in Hassoc.
  assert (forallb (λ kv : string * string, negb (String.eqb kv.2 kv.1))
            GenExcel.color_map = true) as Hall by (vm_compute; reflexivity).
  rewrite forallb_forall in Hall. specialize (Hall _ Hassoc). cbn in Hall.
  apply negb_true_iff, String.eqb_neq in Hall. exact Hall.
Qed.

(** X9: the names of the colour table are pairwise different, and for a
    path with three segments or more the displayed colour is
    [<Chinese>/<English>] when the colour segment is a name of the table,
    and the colour segment itself when it is not. *)
Theorem color_display_form :
  NoDup GenExcel.color_map.*1
  ∧ ∀ file_path, 3 ≤ length (segments file_path) →
      match GenExcel.assoc (path_color file_path) GenExcel.color_map with
      | Some chinese =>
          path_color_display file_path
          = chinese +:+ "/" +:+ path_color file_path
      | None => path_color_display file_path = path_color file_path
      end.
Proof.
  split.
  - apply (bool_decide_unpack _). vm_compute. exact I.
  - intros file_path Hlen.
    unfold path_color, path_color_display, GenExcel.extract_path_info.
    rewrite relevant_parts_segments.
    destruct (segments file_path) as [|a [|b [|color rest]]];
      try (simpl in Hlen; lia).
    cbn [fst snd]. unfold GenExcel.translate_color.
    destruct (GenExcel.assoc color GenExcel.color_map) as [chinese|] eqn:E.
    + apply color_map_never_identity in E.
      rewrite (proj2 (String.eqb_neq chinese color) E). reflexivity.
    + rewrite String.eqb_refl. reflexivity.
Qed.

Lemma color_display_form_witness :
  path_color_display [".."; "PLA"; "PLA Basic"; "Jade White"; "ABCDEF01"]
  = "玉白色/Jade White"
  ∧ path_color_display [".."; "PLA"; "PLA Basic"; "Teal"; "ABCDEF01"] = "Teal".
Proof.
  split.
  - apply (proj2 color_display_form
             [".."; "PLA"; "PLA Basic"; "Jade White"; "ABCDEF01"]).
    vm_compute. lia.
  - apply (proj2 color_display_form
             [".."; "PLA"; "PLA Basic"; "Teal"; "ABCDEF01"]).
    vm_compute. lia.
Defined.

(** ** The report after a synthesis *)

(** No name ends both with [dump.bin] and with [key.bin]. *)
Lemma endswith_bin_not_key (name : string) :
  Py.endswith name "dump.bin" = true → Py.endswith name "key.bin" = false.
Proof.
  intros Hbin. destruct (Py.endswith name "key.bin") eqn:Hkey; [|reflexivity].
  apply endswith_iff in Hbin as [p1 E1], Hkey as [p2 E2].
  apply (f_equal list_ascii_of_string) in E1, E2.
  rewrite list_ascii_of_string_app in E1, E2. rewrite E1 in E2.
  change (list_ascii_of_string "dump.bin")
    with (list_ascii_of_string "dum" ++ list_ascii_of_string "p.bin") in E2.
  change (list_ascii_of_string "key.bin")
    with (list_ascii_of_string "ke" ++ list_ascii_of_string "y.bin") in E2.
  rewrite !app_assoc in E2.
  apply app_inj_2 in E2 as [_ E2]; [discriminate E2 | reflexivity].
Qed.

Lemma keeps_other_names_refl (st : store) : keeps_other_names st st.
Proof. intros d P _. reflexivity. Qed.

Lemma keeps_other_names_trans (st1 st2 st3 : store) :
  keeps_other_names st1 st2 → keeps_other_names st2 st3 →
  keeps_other_names st1 st3.
Proof.
  intros H12 H23 d P HP. rewrite (H23 d P HP). apply (H12 d P HP).
Qed.

Lemma keeps_other_names_put (st : store) (d : path) (l : listing) (n : string)
    (data : list byte) :
  st !! d = Some l →
  Py.endswith n "key.bin" = true →
  keeps_other_names st (<[d := file_put n data l]> st).
Proof.
  intros Hd Hn d' P HP. rewrite files_of_insert.
  destruct (decide (d = d')) as [<-|Hne]; [|reflexivity].
  unfold files_of. rewrite Hd.
  destruct (file_put_names n data l) as [-> | ->]; [reflexivity|].
  rewrite List.filter_app. cbn [List.filter]. rewrite (HP n Hn).
  apply app_nil_r.
Qed.

Lemma find_rfid_files_sound_parts (t : tree) (st : store) (file_path : path) :
  file_path ∈ GenExcel.find_rfid_files t st →
  ∃ root file,
    file_path = path_join root file ∧ Py.endswith file "dump.bin" = true.
Proof.
  intros Hin.
  rewrite find_rfid_files_visited, list_elem_of_In, in_flat_map in Hin.
  destruct Hin as (root & _ & Hin). unfold select_rfid in Hin.
  case_bool_decide; [destruct Hin|].
  destruct (Py.str_in "scripts" root); [destruct Hin|].
  destruct (is_uid_dir_excel (path_name root)); [|destruct Hin].
  apply in_map_iff in Hin as (file & <- & Hin).
  apply filter_In in Hin as [_ Hbin]. eauto.
Qed.

Section ReportAfterSynthesis.
Context `{Platform} `{GenExcel.Parser}.

Lemma main_loop_keeps_other_names (items : list (path * string))
    (s : store * GenMissingKey.tally) :
  keeps_other_names s.1 (GenMissingKey.main_loop items s).1.
Proof.
  revert s. induction items as [|item rest IH]; intros s.
  - apply keeps_other_names_refl.
  - cbn [GenMissingKey.main_loop fold_left].
    eapply keeps_other_names_trans; [|apply IH].
    rewrite main_step_store.
    pose proof (generate_key_file_store item.1 item.2 s.1) as Hst.
    destruct (GenMissingKey.succeeded item.1 item.2 s.1).
    + destruct Hst as (l & uid & key_bytes & Hd & ->).
      apply keeps_other_names_put; [exact Hd | apply key_file_name_endswith].
    + rewrite Hst. apply keeps_other_names_refl.
Qed.

Lemma read_file_read (d : path) (name : string) (st : store) :
  (read_file (path_join d name) st).2
  = match read st d name with
    | Some data => Ok data
    | None => Raise FileNotFoundError
    end.
Proof.
  unfold read_file, read, path_join. rewrite last_snoc, removelast_last.
  destruct (st !! d) as [l|]; [|reflexivity]. cbn.
  destruct (file_get name l); reflexivity.
Qed.

Lemma parse_rfid_file_read (file_path : path) (st st' : store) :
  (read_file file_path st').2 = (read_file file_path st).2 →
  GenExcel.parse_rfid_file file_path st'
  = GenExcel.parse_rfid_file file_path st.
Proof.
  unfold GenExcel.parse_rfid_file.
  destruct (read_file file_path st') as [? r'],
           (read_file file_path st) as [? r].
  cbn [snd]. intros ->. reflexivity.
Qed.

(** X10: the synthesis of key files does not change the report.  After a
    run of [gen_missing_key.main], [find_rfid_files] returns the same files
    as before, and the loop of [gen_excel.main] over them gives the same
    rows and the same statistics, or raises the same exception. *)
Theorem report_unchanged_by_synthesis (t : tree) (st : store)
    (s : list GenExcel.row * gmap string nat) :
  GenExcel.find_rfid_files t (GenMissingKey.main t st).1
  = GenExcel.find_rfid_files t st
  ∧ GenExcel.main_loop (GenMissingKey.main t st).1
      (GenExcel.find_rfid_files t (GenMissingKey.main t st).1) s
    = GenExcel.main_loop st (GenExcel.find_rfid_files t st) s.
Proof.
  set (st1 := (GenMissingKey.main t st).1).
  assert (keeps_other_names st st1) as Hnames
    by apply (main_loop_keeps_other_names _ (st, GenMissingKey.Tally 0 0 [])).
  assert (grows st st1) as Hgrows
    by apply (main_loop_grows _ (st, GenMissingKey.Tally 0 0 [])).
  assert (GenExcel.find_rfid_files t st1 = GenExcel.find_rfid_files t st)
    as Hfiles.
  { rewrite !find_rfid_files_visited. apply flat_map_ext. intros root.
    unfold select_rfid.
    rewrite (Hnames root (λ file, Py.endswith file "dump.bin")).
    - reflexivity.
    - intros n Hn. destruct (Py.endswith n "dump.bin") eqn:Hb; [|reflexivity].
      apply endswith_bin_not_key in Hb. congruence. }
  split; [exact Hfiles|]. rewrite Hfiles. clear Hfiles.
  assert (Forall (λ f, GenExcel.parse_rfid_file f st1
                        = GenExcel.parse_rfid_file f st)
            (GenExcel.find_rfid_files t st)) as Hparse.
  { apply Forall_forall. intros f Hf.
    destruct (find_rfid_files_sound_parts t st f Hf)
      as (root & file & -> & Hbin).
    apply parse_rfid_file_read. rewrite !read_file_read.
    destruct (Hgrows root) as (Hread & _ & _).
    rewrite Hread by (apply endswith_bin_not_key, Hbin). reflexivity. }
  revert s. induction Hparse as [|f files Hf _ IH]; intros s; [reflexivity|].
  cbn [GenExcel.main_loop].
  assert (GenExcel.main_step st1 s f = GenExcel.main_step st s f) as ->.
  { unfold GenExcel.main_step. rewrite Hf. reflexivity. }
  unfold mbind, result_mbind, result_bind.
  destruct (GenExcel.main_step st s f); [apply IH | reflexivity].
Qed.

End ReportAfterSynthesis.

(** ** The order of the batch *)

Section BatchOrder.
Context `{Platform}.

Lemma generate_key_file_in (directory : path) (json_filename : string)
    (st : store) :
  GenMissingKey.generate_key_file directory json_filename st
  = (put_listing directory
       (generate_in directory json_filename (st !! directory)).1 st,
     (generate_in directory json_filename (st !! directory)).2).
Proof.
  rewrite generate_key_file_stages.
  unfold GenMissingKey.load_document, generate_in,
    GenMissingKey.store_key_file.
  destruct (st !! directory) as [l|]; [|reflexivity].
  destruct (file_get json_filename l) as [text|]; [|reflexivity].
  destruct (json_load text) as [data|]; [|reflexivity].
  cbn [mbind result_mbind result_bind].
  destruct (GenMissingKey.decode_document data) as [[uid key_bytes]|e];
    [|reflexivity].
  destruct (os_accepts (GenMissingKey.key_file_name uid)); reflexivity.
Qed.









End BatchOrder.


(** ** The pruning of [scripts] *)

Lemma str_in_list_remove (x y : string) (l : list string) :
  NoDup l →
  Py.str_in x (Py.list_remove y l)
  = negb (String.eqb x y) && Py.str_in x l.
Proof.
  intros Hnodup. unfold Py.str_in.
  induction Hnodup as [|z l Hz Hnodup IH]; cbn.
  - rewrite andb_false_r. reflexivity.
  - destruct (String.eqb_spec y z) as [<-|Hyz].
    + destruct (String.eqb_spec x y) as [->|Hxy]; cbn; [|reflexivity].
      destruct (existsb (String.eqb y) l) eqn:Hin; [|reflexivity].
      apply (str_in_elem_of y l) in Hin. contradiction.
    + cbn. rewrite IH.
      destruct (String.eqb_spec x z) as [->|Hxz]; cbn; [|reflexivity].
      rewrite (proj2 (String.eqb_neq z y)) by congruence. reflexivity.
Qed.

Lemma enter_dirs_filter {A} (walk : path → tree → A → A) (root : path)
    (dirs dirs' : list string) (keep : string → bool)
    (subdirs : list (string * tree)) (acc : A) :
  (∀ name, name ∈ subdirs.*1 → Py.str_in name dirs = keep name) →
  (∀ name, name ∈ subdirs.*1 → keep name = true →
           Py.str_in name dirs' = true) →
  enter_dirs walk root dirs subdirs acc
  = enter_dirs walk root dirs'
      (List.filter (λ entry : string * tree, keep entry.1) subdirs) acc.
Proof.
  revert acc. induction subdirs as [|[name sub] rest IH]; intros acc H1 H2;
    [reflexivity|].
  cbn [enter_dirs List.filter fst].
  rewrite (H1 name) by apply list_elem_of_here.
  assert (∀ n, n ∈ rest.*1 → Py.str_in n dirs = keep n) as H1'
    by (intros n Hn; apply H1, list_elem_of_further, Hn).
  assert (∀ n, n ∈ rest.*1 → keep n = true → Py.str_in n dirs' = true) as H2'
    by (intros n Hn; apply H2, list_elem_of_further, Hn).
  destruct (keep name) eqn:Hkeep.
  - cbn [enter_dirs]. rewrite (H2 name (list_elem_of_here _ _) Hkeep).
    apply IH; assumption.
  - apply IH; assumption.
Qed.

(** X12: with the pruning that both scripts do at the base path, [os.walk]
    never enters the [scripts] directory of the root: whatever the loop
    body collects from each directory it is given, the walk gives the same
    result as on the tree without that directory. *)
Theorem os_walk_never_enters_scripts {A} (out : path → list string → list A)
    (body : list A → path → list string → list string → list A * list string)
    (st : store) (subdirs : list (string * tree)) (acc : list A) :
  (∀ acc root dirs files,
     body acc root dirs files = (acc ++ out root files, pruned root dirs)) →
  NoDup subdirs.*1 →
  os_walk body st base_path (Node subdirs) acc
  = os_walk body st base_path (without_scripts (Node subdirs)) acc.
Proof.
  intros Hbody Hnodup. cbn [os_walk without_scripts]. rewrite !Hbody.
  apply (enter_dirs_filter _ _ _ _ (λ name, negb (String.eqb name "scripts"))).
  - intros name Hname. unfold pruned.
    rewrite bool_decide_true by reflexivity.
    destruct (Py.str_in "scripts" subdirs.*1) eqn:Hscripts.
    + rewrite str_in_list_remove by exact Hnodup.
      rewrite (proj2 (str_in_elem_of name _) Hname). apply andb_true_r.
    + rewrite (proj2 (str_in_elem_of name _) Hname).
      destruct (String.eqb_spec name "scripts") as [->|]; [|reflexivity].
      apply str_in_elem_of in Hname. congruence.
  - intros name Hname Hkeep. unfold pruned.
    rewrite bool_decide_true by reflexivity.
    assert (Py.str_in name
              (List.filter (λ entry : string * tree,
                              negb (String.eqb entry.1 "scripts")) subdirs).*1
            = true) as Hin.
    { apply str_in_elem_of. apply list_elem_of_fmap in Hname as ([n sub] & -> & Hin).
      apply list_elem_of_fmap. exists (n, sub). split; [reflexivity|].
      apply list_elem_of_In, filter_In. split; [apply list_elem_of_In, Hin|].
      exact Hkeep. }
    destruct (Py.str_in "scripts" _) eqn:Hscripts; [|exact Hin].
    apply str_in_elem_of, list_elem_of_fmap in Hscripts as ([n sub] & Hn & Hs).
    apply list_elem_of_In, filter_In in Hs as [_ Hs]. cbn in Hn, Hs. subst n.
    discriminate Hs.
Qed.

Lemma os_walk_never_enters_scripts_witness :
  os_walk record_body (Examples.project_store [x01]) base_path
    Examples.project []
  = [ [".."]; [".."; "PLA"]; [".."; "PLA"; "PLA Basic"];
      [".."; "PLA"; "PLA Basic"; "Black"]; Examples.black_dir ].
Proof.
  etrans.
  - apply (os_walk_never_enters_scripts (λ root _, [root]) record_body
             (Examples.project_store [x01])
             [ ("PLA", Node [ ("PLA Basic",
                  Node [ ("Black", Node [ ("ABCDEF01", Node []) ]) ]) ]);
               ("scripts", Node [ ("ABCDEF02", Node []) ]) ] []).
    + reflexivity.
    + apply (bool_decide_unpack _). vm_compute. exact I.
  - vm_compute. reflexivity.
Defined.

(** ** The summary of the statistics *)




Section Statistics.
Context `{GenExcel.Parser}.





End Statistics.


(** ** What the statistics count *)

Section Counters.
Context `{GenExcel.Parser}.

Lemma main_step_stats (st : store) (rows rows' : list GenExcel.row)
    (stats stats' : gmap string nat) (file_path : path) :
  GenExcel.main_step st (rows, stats) file_path = Ok (rows', stats') →
  stats'
  = if GenExcel.truthy (GenExcel.parse_rfid_file file_path st)
    then GenExcel.incr ("颜色_" +:+ path_color file_path)
           (GenExcel.incr ("材料类型_" +:+ path_material_type file_path) stats)
    else stats.
Proof.
  unfold GenExcel.main_step, path_color, path_material_type.
  destruct (GenExcel.extract_path_info file_path)
    as [[[[material_category material_type] color] uid] color_display].
  cbn [fst snd].
  destruct (GenExcel.truthy (GenExcel.parse_rfid_file file_path st)).
  - unfold mbind, result_mbind, result_bind.
    destruct (GenExcel.hotend _ "min_hotend"); [|discriminate].
    destruct (GenExcel.hotend _ "max_hotend"); [|discriminate].
    destruct (GenExcel.getattr _ "data") as [tag_data|]; [|discriminate].
    destruct (GenExcel.dict_get tag_data "uid" _); [|discriminate].
    destruct (GenExcel.dict_get tag_data "filament_color" _); [|discriminate].
    intros [= <- <-]. reflexivity.
  - intros [= <- <-]. reflexivity.
Qed.

Lemma counter_incr (stats : gmap string nat) (key k : string) :
  counter (GenExcel.incr k stats) key
  = counter stats key + (if decide (k = key) then 1 else 0).
Proof.
  unfold counter, GenExcel.incr. rewrite lookup_insert.
  destruct (decide (k = key)) as [->|]; cbn; lia.
Qed.

Lemma material_key_not_color_key (a b : string) :
  "颜色_" +:+ a ≠ "材料类型_" +:+ b.
Proof. intros E. discriminate E. Qed.

(** X14: when the loop of [gen_excel.main] runs to its end, the counter of
    a material type has grown by the number of files of that material type
    that were parsed, and the counter of a colour by the number of parsed
    files of that colour; a file that could not be parsed is counted
    nowhere. *)
Theorem stats_count_parsed_files (st : store) (rfid_files : list path)
    (rows rows' : list GenExcel.row) (stats stats' : gmap string nat)
    (name : string) :
  GenExcel.main_loop st rfid_files (rows, stats) = Ok (rows', stats') →
  counter stats' ("材料类型_" +:+ name)
  = counter stats ("材料类型_" +:+ name)
    + length (parsed_files st
                (λ f, bool_decide (path_material_type f = name)) rfid_files)
  ∧ counter stats' ("颜色_" +:+ name)
    = counter stats ("颜色_" +:+ name)
      + length (parsed_files st
                  (λ f, bool_decide (path_color f = name)) rfid_files).
Proof.
  revert rows stats. induction rfid_files as [|file_path rest IH];
    intros rows stats.
  - intros [= <- <-]. cbn. split; lia.
  - cbn [GenExcel.main_loop]. unfold mbind, result_mbind, result_bind.
    destruct (GenExcel.main_step st (rows, stats) file_path)
      as [[rows1 stats1]|] eqn:Hstep; [|discriminate].
    intros Hrest. apply IH in Hrest as [IHm IHc]. rewrite IHm, IHc.
    apply main_step_stats in Hstep. subst stats1.
    unfold parsed_files. cbn [List.filter].
    destruct (GenExcel.truthy (GenExcel.parse_rfid_file file_path st));
      cbn [andb]; [|split; reflexivity].
    rewrite !counter_incr.
    rewrite (decide_False (P := "颜色_" +:+ path_color file_path
                               = "材料类型_" +:+ name))
      by apply material_key_not_color_key.
    rewrite (decide_False (P := "材料类型_" +:+ path_material_type file_path
                               = "颜色_" +:+ name))
      by (intros E; symmetry in E; revert E; apply material_key_not_color_key).
    split.
    + destruct (decide (path_material_type file_path = name)) as [E|E].
      * rewrite decide_True by (rewrite E; reflexivity).
        rewrite bool_decide_true by exact E. cbn. lia.
      * rewrite decide_False
          by (intros E'; apply E; apply (inj (String.app _)) in E'; exact E').
        rewrite bool_decide_false by exact E. cbn. lia.
    + destruct (decide (path_color file_path = name)) as [E|E].
      * rewrite decide_True by (rewrite E; reflexivity).
        rewrite bool_decide_true by exact E. cbn. lia.
      * rewrite decide_False
          by (intros E'; apply E; apply (inj (String.app _)) in E'; exact E').
        rewrite bool_decide_false by exact E. cbn. lia.
Qed.

End Counters.

Lemma stats_count_parsed_files_witness :
  counter (GenExcel.incr "颜色_Black" (GenExcel.incr "材料类型_PLA Basic" ∅))
    ("材料类型_" +:+ "PLA Basic")
  = counter ∅ ("材料类型_" +:+ "PLA Basic")
    + length (parsed_files (H := reading_parser) Examples.dump_store
                (λ f, bool_decide (path_material_type f = "PLA Basic"))
                [Examples.black_dump]).
Proof.
  apply (proj1 (stats_count_parsed_files (H := reading_parser)
    Examples.dump_store [Examples.black_dump] []
    [GenExcel.Row (GenExcel.PStr "PLA Basic")
       (GenExcel.PStr "黑色/Black") (GenExcel.PStr "ABCDEF01")
       (GenExcel.PStr GenExcel.unknown) (GenExcel.PStr GenExcel.unknown)]
    ∅ (GenExcel.incr "颜色_Black" (GenExcel.incr "材料类型_PLA Basic" ∅))
    "PLA Basic" eq_refl)).
Defined.

(** ** Tags with missing or malformed data *)

Section TagData.
Context `{GenExcel.Parser}.

(** X15: a parsed tag whose data are a dictionary without [temperatures]
    never makes the iteration raise: its row has the unknown place-holder
    as print temperature, and the same place-holder for the UID and the
    colour code that the dictionary does not hold. *)
Theorem main_step_defaults (st : store) (file_path : path)
    (rows : list GenExcel.row) (stats : gmap string nat)
    (attrs d : gmap string GenExcel.pyobj) :
  GenExcel.parse_rfid_file file_path st = GenExcel.PObj attrs →
  attrs !! "data" = Some (GenExcel.PDict d) →
  d !! "temperatures" = None →
  ∃ stats',
    GenExcel.main_step st (rows, stats) file_path
    = Ok (rows ++
          [GenExcel.Row (GenExcel.PStr (path_material_type file_path))
             (GenExcel.PStr (path_color_display file_path))
             (default (GenExcel.PStr GenExcel.unknown) (d !! "uid"))
             (default (GenExcel.PStr GenExcel.unknown) (d !! "filament_color"))
             (GenExcel.PStr GenExcel.unknown)],
          stats').
Proof.
  intros Hparse Hdata Htemp.
  unfold GenExcel.main_step, path_material_type, path_color_display.
  destruct (GenExcel.extract_path_info file_path)
    as [[[[material_category material_type] color] uid] color_display].
  cbn [fst snd]. rewrite Hparse. cbn [GenExcel.truthy].
  unfold GenExcel.hotend, GenExcel.getattr. rewrite Hdata.
  cbn [mbind result_mbind result_bind GenExcel.dict_get]. rewrite Htemp.
  cbn [mbind result_mbind result_bind GenExcel.dict_get].
  rewrite !lookup_empty.
  cbn [mbind result_mbind result_bind GenExcel.hasattr GenExcel.is_none
       negb andb].
  destruct (d !! "uid"), (d !! "filament_color"); cbn; eauto.
Qed.

Lemma main_loop_app_raise (st : store) (before after : list path)
    (file_path : path) (s s1 : list GenExcel.row * gmap string nat) (e : exn) :
  GenExcel.main_loop st before s = Ok s1 →
  GenExcel.main_step st s1 file_path = Raise e →
  GenExcel.main_loop st (before ++ file_path :: after) s = Raise e.
Proof.
  revert s. induction before as [|f rest IH]; intros s.
  - intros [= ->] Hstep. cbn [app GenExcel.main_loop]. rewrite Hstep.
    reflexivity.
  - cbn [app GenExcel.main_loop]. unfold mbind, result_mbind, result_bind.
    destruct (GenExcel.main_step st s f) as [s'|]; [|discriminate].
    apply IH.
Qed.

(** X16: a parse failure is isolated, a malformed tag is not.  When the
    parser returns a tag whose [temperatures] entry is not a dictionary, the
    iteration raises [AttributeError] and the loop over the whole list of
    files raises it too, whatever the files before have given and whatever
    files follow. *)
Theorem main_loop_malformed_tag (st : store) (before after : list path)
    (file_path : path) (s s1 : list GenExcel.row * gmap string nat)
    (attrs d : gmap string GenExcel.pyobj) (temperatures : GenExcel.pyobj) :
  GenExcel.main_loop st before s = Ok s1 →
  GenExcel.parse_rfid_file file_path st = GenExcel.PObj attrs →
  attrs !! "data" = Some (GenExcel.PDict d) →
  d !! "temperatures" = Some temperatures →
  (∀ entries, temperatures ≠ GenExcel.PDict entries) →
  GenExcel.main_loop st (before ++ file_path :: after) s
  = Raise AttributeError.
Proof.
  intros Hbefore Hparse Hdata Htemp Hnodict.
  apply (main_loop_app_raise _ _ _ _ _ _ _ Hbefore).
  destruct s1 as [rows stats]. unfold GenExcel.main_step.
  destruct (GenExcel.extract_path_info file_path)
    as [[[[material_category material_type] color] uid] color_display].
  rewrite Hparse. cbn [GenExcel.truthy].
  unfold GenExcel.hotend, GenExcel.getattr. rewrite Hdata.
  cbn [mbind result_mbind result_bind GenExcel.dict_get]. rewrite Htemp.
  cbn [mbind result_mbind result_bind].
  destruct temperatures; try reflexivity.
  exfalso. eapply Hnodict. reflexivity.
Qed.

End TagData.

Lemma main_step_defaults_witness :
  ∃ stats',
    GenExcel.main_step (H := reading_parser) Examples.dump_store ([], ∅)
      Examples.black_dump
    = Ok ([GenExcel.Row (GenExcel.PStr "PLA Basic")
             (GenExcel.PStr "黑色/Black") (GenExcel.PStr "ABCDEF01")
             (GenExcel.PStr GenExcel.unknown)
             (GenExcel.PStr GenExcel.unknown)], stats').
Proof.
  destruct (main_step_defaults (H := reading_parser) Examples.dump_store
              Examples.black_dump [] ∅
              {[ "data" :=
                   GenExcel.PDict {[ "uid" := GenExcel.PStr "ABCDEF01" ]} ]}
              {[ "uid" := GenExcel.PStr "ABCDEF01" ]})
    as [stats' E]; [reflexivity .. |].
  exists stats'. exact E.
Defined.

Lemma main_loop_malformed_tag_witness :
  GenExcel.main_loop (H := malformed_parser) Examples.dump_store
    ([] ++ Examples.black_dump :: [Examples.black_dump]) ([], ∅)
  = Raise AttributeError.
Proof.
  apply (main_loop_malformed_tag (H := malformed_parser) Examples.dump_store
           [] [Examples.black_dump] Examples.black_dump ([], ∅) ([], ∅)
           {[ "data" :=
                GenExcel.PDict {[ "temperatures" := GenExcel.PStr "hot" ]} ]}
           {[ "temperatures" := GenExcel.PStr "hot" ]}
           (GenExcel.PStr "hot"));
    try reflexivity.
  intros entries E. discriminate E.
Defined.

(** ** Running [generate_key_file] again *)

Section Again.
Context `{Platform}.

Lemma file_put_again (name : string) (data : list byte) (l : listing) :
  file_put name data (file_put name data l) = file_put name data l.
Proof.
  induction l as [|[m d] l IH]; cbn.
  - rewrite String.eqb_refl. reflexivity.
  - destruct (String.eqb_spec name m) as [->|Hne]; cbn.
    + rewrite String.eqb_refl. reflexivity.
    + rewrite (proj2 (String.eqb_neq name m)) by exact Hne.
      rewrite IH. reflexivity.
Qed.

(** X17: [generate_key_file] can be called again on a directory it has
    served: when the name of the document does not end with [key.bin], a
    second call returns the same triple as the first and leaves the tree as
    the first call left it, the key file being rewritten with the same
    bytes. *)
Theorem generate_key_file_again (directory : path) (json_filename : string)
    (st : store) :
  Py.endswith json_filename "key.bin" = false →
  GenMissingKey.generate_key_file directory json_filename
    (GenMissingKey.generate_key_file directory json_filename st).1
  = GenMissingKey.generate_key_file directory json_filename st.
Proof.
  intros Hname. rewrite !generate_key_file_in.
  destruct (generate_in directory json_filename (st !! directory))
    as [new triple] eqn:Hfirst.
  cbn [fst snd]. destruct new as [l'|]; cbn [put_listing].
  - rewrite lookup_insert_eq.
    unfold generate_in in Hfirst |- *.
    destruct (st !! directory) as [l|]; [|discriminate Hfirst].
    destruct (file_get json_filename l) as [text|] eqn:Hget;
      [|discriminate Hfirst].
    destruct (json_load text) as [data|] eqn:Hload; [|discriminate Hfirst].
    destruct (GenMissingKey.decode_document data) as [[uid key_bytes]|e]
      eqn:Hdecode; [|discriminate Hfirst].
    destruct (os_accepts (GenMissingKey.key_file_name uid)) eqn:Hos;
      [|discriminate Hfirst].
    injection Hfirst as <- <-.
    rewrite file_get_put_ne, Hget, Hload, Hdecode, Hos.
    + cbn [fst snd put_listing].
      rewrite file_put_again, insert_insert_eq. reflexivity.
    + intros ->. rewrite key_file_name_endswith in Hname. discriminate Hname.
  - rewrite Hfirst. reflexivity.
Qed.

End Again.

Lemma generate_key_file_again_witness :
  GenMissingKey.generate_key_file (H := Examples.toy_platform)
    Examples.black_dir Examples.json_name
    (GenMissingKey.generate_key_file (H := Examples.toy_platform)
       Examples.black_dir Examples.json_name (Examples.json_store [x01])).1
  = GenMissingKey.generate_key_file (H := Examples.toy_platform)
      Examples.black_dir Examples.json_name (Examples.json_store [x01]).
Proof.
  apply (generate_key_file_again (H := Examples.toy_platform)).
  vm_compute. reflexivity.
Defined.

(** ** The searches miss nothing *)

Lemma str_in_list_remove_other (x y : string) (l : list string) :
  x ∈ l → x ≠ y → Py.str_in x (Py.list_remove y l) = true.
Proof.
  intros Hin Hne. apply str_in_elem_of.
  induction l as [|z l IH]; [apply elem_of_nil in Hin as []|].
  cbn. destruct (String.eqb_spec y z) as [<-|Hyz].
  - apply elem_of_cons in Hin as [->|Hin]; [congruence | exact Hin].
  - apply elem_of_cons in Hin as [->|Hin].
    + apply list_elem_of_here.
    + apply list_elem_of_further, IH, Hin.
Qed.

(** Every directory of the tree is visited, unless it is the [scripts]
    directory of the root or lies below it. *)
Lemma visited_has_dir (rel : list string) (root : path) (t : tree) :
  root ≠ [] →
  has_dir rel t →
  (root = base_path → head rel ≠ Some "scripts") →
  root ++ rel ∈ visited root t.
Proof.
  revert root t. induction rel as [|name rest IH]; intros root [subdirs].
  - intros _ _ _. rewrite app_nil_r. cbn [visited]. apply list_elem_of_here.
  - intros Hroot Hdir Hscripts. cbn [has_dir] in Hdir. cbn [visited].
    apply list_elem_of_further.
    apply Exists_exists in Hdir as ([n sub] & Hentry & Hn & Hsub).
    cbn [fst snd] in Hn, Hsub. subst n.
    apply list_elem_of_In, in_flat_map. exists (name, sub).
    split; [apply list_elem_of_In, Hentry|]. cbn [fst snd].
    assert (Py.str_in name (pruned root subdirs.*1) = true) as ->.
    { assert (name ∈ subdirs.*1) as Hname
        by (apply list_elem_of_fmap; exists (name, sub); auto).
      unfold pruned. case_bool_decide as Hbase.
      - destruct (Py.str_in "scripts" subdirs.*1).
        + apply str_in_list_remove_other; [exact Hname|].
          intros ->. apply (Hscripts Hbase). reflexivity.
        + apply str_in_elem_of, Hname.
      - apply str_in_elem_of, Hname. }
    apply list_elem_of_In.
    replace (root ++ name :: rest) with (path_join root name ++ rest)
      by (unfold path_join; rewrite <- app_assoc; reflexivity).
    apply IH; [| exact Hsub |].
    + unfold path_join. destruct root; [congruence | discriminate].
    + unfold path_join, base_path. intros E.
      destruct root as [|r [|r' root]]; [congruence | discriminate E
                                         | discriminate E].
Qed.

Lemma base_path_rel (rel : list string) :
  rel ≠ [] → "scripts" ∉ rel →
  bool_decide (base_path ++ rel = base_path) = false
  ∧ Py.str_in "scripts" (base_path ++ rel) = false
  ∧ (base_path = base_path → head rel ≠ Some "scripts").
Proof.
  intros Hrel Hscripts. split; [|split].
  - apply bool_decide_eq_false. destruct rel; [congruence | discriminate].
  - destruct (Py.str_in "scripts" (base_path ++ rel)) eqn:E; [|reflexivity].
    apply str_in_elem_of, elem_of_cons in E as [E|E]; [discriminate E|].
    contradiction.
  - intros _ E. apply Hscripts. destruct rel as [|r rel]; [discriminate E|].
    injection E as ->. apply list_elem_of_here.
Qed.

(** X18: [find_missing_key_files] misses no directory.  A directory of the
    tree whose path has no [scripts] part, whose name has 8 hexadecimal
    digits, that lists a file ending with [dump.json] and no file ending
    with [key.bin], is returned with the first of its documents. *)
Theorem find_missing_key_files_complete (t : tree) (st : store)
    (rel : list string) (json_file : string) (others : list string) :
  has_dir rel t →
  rel ≠ [] →
  "scripts" ∉ rel →
  is_uid_dir (path_name (base_path ++ rel)) = true →
  json_files st (base_path ++ rel) = json_file :: others →
  key_files st (base_path ++ rel) = [] →
  (base_path ++ rel, json_file) ∈ GenMissingKey.find_missing_key_files t st.
Proof.
  intros Hdir Hrel Hscripts Huid Hjson Hkey.
  destruct (base_path_rel rel Hrel Hscripts) as (Hbase & Hin & Hhead).
  apply elem_of_find_missing_key_files. split.
  - apply visited_has_dir; [discriminate | exact Hdir | exact Hhead].
  - unfold select_missing. rewrite Hbase, Hin, Huid.
    fold (json_files st (base_path ++ rel)) (key_files st (base_path ++ rel)).
    rewrite Hjson, Hkey. reflexivity.
Qed.

(** X19: [find_rfid_files] misses no dump.  Every file ending with
    [dump.bin] that is listed in a directory of the tree whose path has no
    [scripts] part and whose name has 8 hexadecimal digits is returned. *)
Theorem find_rfid_files_complete (t : tree) (st : store)
    (rel : list string) (file : string) :
  has_dir rel t →
  rel ≠ [] →
  "scripts" ∉ rel →
  is_uid_dir_excel (path_name (base_path ++ rel)) = true →
  file ∈ files_of st (base_path ++ rel) →
  Py.endswith file "dump.bin" = true →
  path_join (base_path ++ rel) file ∈ GenExcel.find_rfid_files t st.
Proof.
  intros Hdir Hrel Hscripts Huid Hfile Hbin.
  destruct (base_path_rel rel Hrel Hscripts) as (Hbase & Hin & Hhead).
  rewrite find_rfid_files_visited. apply list_elem_of_In, in_flat_map.
  exists (base_path ++ rel). split.
  - apply list_elem_of_In, visited_has_dir;
      [discriminate | exact Hdir | exact Hhead].
  - unfold select_rfid. rewrite Hbase, Hin, Huid.
    apply in_map, filter_In. split; [apply list_elem_of_In, Hfile | exact Hbin].
Qed.

Lemma find_missing_key_files_complete_witness :
  (Examples.black_dir, Examples.json_name)
  ∈ GenMissingKey.find_missing_key_files Examples.project
      (Examples.project_store [x01]).
Proof.
  apply (find_missing_key_files_complete Examples.project
           (Examples.project_store [x01])
           ["PLA"; "PLA Basic"; "Black"; "ABCDEF01"] Examples.json_name []).
  - repeat (apply Exists_cons_hd; split; [reflexivity|]). exact I.
  - discriminate.
  - apply (bool_decide_unpack _). vm_compute. exact I.
  - vm_compute. reflexivity.
  - vm_compute. reflexivity.
  - vm_compute. reflexivity.
Defined.

Lemma find_rfid_files_complete_witness :
  path_join Examples.black_dir "hf-mf-ABCDEF01-dump.bin"
  ∈ GenExcel.find_rfid_files Examples.project (Examples.project_store [x01]).
Proof.
  apply (find_rfid_files_complete Examples.project
           (Examples.project_store [x01])
           ["PLA"; "PLA Basic"; "Black"; "ABCDEF01"]
           "hf-mf-ABCDEF01-dump.bin").
  - repeat (apply Exists_cons_hd; split; [reflexivity|]). exact I.
  - discriminate.
  - apply (bool_decide_unpack _). vm_compute. exact I.
  - vm_compute. reflexivity.
  - replace (files_of (Examples.project_store [x01])
               (base_path ++ ["PLA"; "PLA Basic"; "Black"; "ABCDEF01"]))
      with [Examples.json_name; "hf-mf-ABCDEF01-dump.bin"]
      by (vm_compute; reflexivity).
    apply list_elem_of_further, list_elem_of_here.
  - vm_compute. reflexivity.
Defined.

(** ** Directories that [main] leaves alone *)

Section Untouched.
Context `{Platform}.



End Untouched.

